(** * Verification of the summary-widget synchronisation job

    A shallow embedding of the scheduler job [onRun] of [src/main.tsx] and of
    the helper [updateWidget] of [extendedDevvit], followed by the properties
    of the job stated in the specification.

    The job is a straight-line asynchronous routine over collaborators of the
    platform (settings, redis, fetch, widget store, media upload).  It is
    modelled as a computation in a small monad that threads the redis store
    and the list of collaborator calls made so far, and that stops at the
    first [return logger(...)] or at the first rejected / thrown call (the
    enclosing [try]/[catch] only logs). *)

From Stdlib Require Import ZArith Ascii String List Bool Lia.
From stdpp Require Import base option list gmap strings pretty.

Local Open Scope Z_scope.
Local Open Scope string_scope.
Local Open Scope list_scope.

(* ================================================================== *)
(** ** Strings as the code uses them *)

(** [String.prototype.toLowerCase] on the ASCII letters, for the header
    names and the declared content type.  The two prefixes the job tests the
    type against are ASCII, and a character outside ASCII never lower-cases
    into them, so folding the ASCII letters decides both tests as the code
    does.  The setting and the widget names are free text: their
    lower-casing follows the Unicode tables of the runtime and is a
    collaborator of the job, [String_toLowerCase] of [Env]. *)
Definition lower_ascii (c : ascii) : ascii :=
  let n := nat_of_ascii c in
  if (Nat.leb 65 n && Nat.leb n 90)%bool then ascii_of_nat (n + 32) else c.

Fixpoint toLowerCase (s : string) : string :=
  match s with
  | EmptyString => EmptyString
  | String c r => String (lower_ascii c) (toLowerCase r)
  end.

(** [s.startsWith(p)]. *)
Definition startsWith (s p : string) : bool := String.prefix p s.

(** JavaScript truthiness of a string: every string but the empty one. *)
Definition truthy (s : string) : bool :=
  match s with
  | EmptyString => false
  | String _ _ => true
  end.

(** Folding the ASCII letters keeps a string empty or not. *)
Definition truthy_toLowerCase (s : string)
  : truthy (toLowerCase s) = truthy s :=
  match s with
  | EmptyString => eq_refl
  | String _ _ => eq_refl
  end.

(** Truthiness of [string | undefined]. *)
Definition truthy_opt (o : option string) : bool :=
  match o with
  | Some s => truthy s
  | None => false
  end.

(* ================================================================== *)
(** ** Constants of [main.tsx] *)

Module SettingKeys.
Definition SummaryWidgetName : string := "summary-widget-name".
Definition SummaryWidgetDomain : string := "summary-widget-domain".
Definition SummaryUpdateFrequency : string := "summary-update-freq".
End SettingKeys.

Module RedisKeys.
Definition SummaryLastModified : string := "summary:widget:last_modified".
Definition SummaryUpdateJob : string := "summary:job:id".
End RedisKeys.

(* ================================================================== *)
(** ** Data exchanged with the platform *)

(** A promise settles either way. *)
Inductive reply (A : Type) : Type :=
| Resolved (a : A)
| Rejected (reason : string).
Arguments Resolved {A} a.
Arguments Rejected {A} reason.

(** What the [catch] of the job can receive: the [Error] thrown by
    [updateWidget], or the rejection of an awaited platform call. *)
Inductive Exn : Type :=
| UnknownWidgetType
| Rejection (reason : string).

(** The response of [fetch].  [headers] is keyed by lower-cased header
    name, as the [Headers] object of the Fetch API normalises names;
    [body_text] is what [await apiResult.text()] settles to. *)
Record Response : Type := {
  status : Z;
  statusText : string;
  headers : gmap string string;
  body_text : reply string
}.

(** [apiResult.headers.get(name)] : [string | null]. *)
Definition headers_get (r : Response) (name : string) : option string :=
  headers r !! toLowerCase name.

(** The widgets of [getWidgets]: the job only tests [instanceof] against
    the two classes it handles. *)
Inductive WidgetClass : Type :=
| TextAreaWidget
| ImageWidget
| OtherWidget (kind : string).

Record Widget : Type := {
  widget_id : string;
  widget_name : string;
  widget_class : WidgetClass
}.

Record MediaAsset : Type := {
  mediaId : string;
  mediaUrl : string
}.

Record ImageData : Type := {
  url : string;
  linkUrl : string;
  width : Z;
  height : Z
}.

Record Styles : Type := {
  backgroundColor : string;
  headerColor : string
}.

(** The object literal [widgetData] of the job.  It is cast to
    [UpdateWidgetData] with [as]; at run time [type] is a plain string. *)
Record UpdateWidgetData : Type := {
  wd_type : string;
  wd_id : option string;
  wd_subreddit : string;
  wd_shortName : string;
  wd_text : option string;
  wd_data : option ImageData;
  wd_styles : Styles
}.

(** What an update or an add settles to when it is truthy. *)
Record WidgetResponse : Type := {
  response_id : string
}.

Definition Metadata : Type := list (string * string).

(* ================================================================== *)
(** ** The collaborators, and the calls a run makes to them *)

(** One answer per call the job can make.  Redis is the store threaded
    through the run; the environment only says whether a redis operation
    rejects.  [String_toLowerCase] is [String.prototype.toLowerCase] of the
    runtime as the job applies it to the name setting and to the widget
    names (lines 260 and 306); of its case tables only
    [toLowerCase_truthy] is known: every character lower-cases to at
    least one character, so the empty string alone becomes empty. *)
Record Env : Type := {
  subredditName : option string;
  debug_metadata : Metadata;
  settings_get : string -> reply (option string);
  redis_get_rejects : option string;
  redis_set_rejects : option string;
  fetch : string -> option string -> reply Response;
  reddit_getWidgets : string -> reply (list Widget);
  reddit_deleteWidget : string -> string -> reply unit;
  media_upload : string -> string -> reply (option MediaAsset);
  Widgets_UpdateImageWidget :
    UpdateWidgetData -> Metadata -> reply (option WidgetResponse);
  Widgets_UpdateTextAreaWidget :
    UpdateWidgetData -> Metadata -> reply (option WidgetResponse);
  reddit_addWidget : UpdateWidgetData -> reply (option WidgetResponse);
  String_toLowerCase : string -> string;
  toLowerCase_truthy :
    forall s, truthy (String_toLowerCase s) = truthy s
}.

(** A call issued to a collaborator, with what it settled to. *)
Inductive Call : Type :=
| CSettingsGet (key : string) (r : reply (option string))
| CRedisGet (key : string) (r : reply (option string))
| CFetch (fetchUrl : string) (ifModifiedSince : option string)
    (r : reply Response)
| CGetWidgets (sub : string) (r : reply (list Widget))
| CDeleteWidget (sub id : string) (r : reply unit)
| CMediaUpload (fetchUrl type : string) (r : reply (option MediaAsset))
| CResponseText (r : reply string)
| CUpdateImageWidget (wd : UpdateWidgetData) (r : reply (option WidgetResponse))
| CUpdateTextAreaWidget (wd : UpdateWidgetData)
    (r : reply (option WidgetResponse))
| CAddWidget (wd : UpdateWidgetData) (r : reply (option WidgetResponse))
| CRedisSet (key value : string) (r : reply unit).

(* ================================================================== *)
(** ** Outcomes: the points at which the job ends *)

Inductive SkipReason : Type :=
| missing_subreddit        (* line 257 *)
| missing_widget_name      (* line 262 *)
| missing_domain           (* line 267 *)
| http_error               (* line 291 *)
| invalid_content_type     (* line 296 *)
| ambiguous_existing       (* line 310 *)
| unknown_existing_type    (* line 315 *)
| upload_failed            (* line 340 *)
| update_failed            (* line 370 *)
| create_failed.           (* line 378 *)

Inductive Outcome : Type :=
| unchanged                (* line 287 *)
| updated                  (* line 372, then the end of the body *)
| created                  (* line 380, then the end of the body *)
| skipped (why : SkipReason)
| threw (e : Exn).         (* line 396: the catch *)

(* ================================================================== *)
(** ** The monad of a run *)

Record RunState : Type := {
  redis : gmap string string;
  calls : list Call
}.

(** A step either yields a value or ends the run with an outcome. *)
Definition Job (A : Type) : Type := RunState -> (A + Outcome) * RunState.

Definition ret {A} (a : A) : Job A := fun s => (inl a, s).

Definition bind {A B} (m : Job A) (k : A -> Job B) : Job B :=
  fun s =>
    match m s with
    | (inl a, s') => k a s'
    | (inr o, s') => (inr o, s')
    end.

Notation "x <- m ;; k" := (bind m (fun x => k))
  (at level 100, m at next level, right associativity).
Notation "m ;;; k" := (bind m (fun _ => k))
  (at level 100, right associativity).

(** [return logger(...)]. *)
Definition finish {A} (o : Outcome) : Job A := fun s => (inr o, s).

(** [throw e], caught by the [catch] of the job. *)
Definition throw {A} (e : Exn) : Job A := finish (threw e).

Definition record (c : Call) (s : RunState) : RunState :=
  {| redis := redis s; calls := calls s ++ [c] |}.

(** [await] of a platform call: the call is issued, then the run goes on
    with the value or jumps to the [catch]. *)
Definition await {A} (c : reply A -> Call) (r : reply A) : Job A :=
  fun s =>
    match r with
    | Resolved a => (inl a, record (c r) s)
    | Rejected e => (inr (threw (Rejection e)), record (c r) s)
    end.

(** [await context.redis.get(key)]. *)
Definition redis_get (env : Env) (key : string) : Job (option string) :=
  fun s =>
    let r := match redis_get_rejects env with
             | Some e => Rejected e
             | None => Resolved (redis s !! key)
             end in
    await (CRedisGet key) r s.

(** [await context.redis.set(key, value)]: a rejected set stores nothing. *)
Definition redis_set (env : Env) (key value : string) : Job unit :=
  fun s =>
    match redis_set_rejects env with
    | Some e =>
        (inr (threw (Rejection e)), record (CRedisSet key value (Rejected e)) s)
    | None =>
        (inl tt,
         record (CRedisSet key value (Resolved tt))
           {| redis := <[key := value]> (redis s); calls := calls s |})
    end.

(** [if (!x) return logger(...)] for [x : string | undefined]: go on with
    the value when it is truthy, end the run otherwise. *)
Definition nonempty (o : option string) : option string :=
  match o with
  | Some s => if truthy s then Some s else None
  | None => None
  end.

Definition require {A} (o : option A) (otherwise : Outcome) : Job A :=
  match o with
  | Some a => ret a
  | None => finish otherwise
  end.

(* ================================================================== *)
(** ** [extendedDevvit.updateWidget] *)

(** The [switch (widgetData?.type)]: the two known types go to the plugin
    call of their kind, anything else (also a missing [widgetData]) throws
    [Error('Unknown widget type')]. *)
Definition updateWidget (env : Env) (widgetData : option UpdateWidgetData)
    (metadata : Metadata) : Job (option WidgetResponse) :=
  match widgetData with
  | Some wd =>
      if String.eqb (wd_type wd) "image" then
        await (CUpdateImageWidget wd) (Widgets_UpdateImageWidget env wd metadata)
      else if String.eqb (wd_type wd) "textarea" then
        await (CUpdateTextAreaWidget wd)
          (Widgets_UpdateTextAreaWidget env wd metadata)
      else throw UnknownWidgetType
  | None => throw UnknownWidgetType
  end.

(* ================================================================== *)
(** ** The scheduler job [onRun], section by section *)

Record Params : Type := {
  p_subredditName : string;
  p_widgetName : string;
  p_widgetDomain : string
}.

(** Lines 256-267, "Parameter Validation". *)
Definition validate_parameters (env : Env) : Job Params :=
  sub <- require (nonempty (subredditName env)) (skipped missing_subreddit) ;;
  name <- await (CSettingsGet SettingKeys.SummaryWidgetName)
            (settings_get env SettingKeys.SummaryWidgetName) ;;
  widgetName <- require (nonempty (option_map (String_toLowerCase env) name))
                  (skipped missing_widget_name) ;;
  domain <- await (CSettingsGet SettingKeys.SummaryWidgetDomain)
              (settings_get env SettingKeys.SummaryWidgetDomain) ;;
  widgetDomain <- require (nonempty domain) (skipped missing_domain) ;;
  ret {| p_subredditName := sub;
         p_widgetName := widgetName;
         p_widgetDomain := widgetDomain |}.

Definition fetchUrl_of (p : Params) : string :=
  "https://" +:+ p_widgetDomain p +:+ "/api/v1".

(** Lines 272-281, "Call API": the stored token is sent as
    [If-Modified-Since] when it is truthy. *)
Definition call_api (env : Env) (p : Params) : Job Response :=
  lastModified <- redis_get env RedisKeys.SummaryLastModified ;;
  let fetchUrl := fetchUrl_of p in
  let ifModifiedSince := nonempty lastModified in
  await (CFetch fetchUrl ifModifiedSince) (fetch env fetchUrl ifModifiedSince).

(** Lines 294-299: the declared type is lower-cased, must be truthy and
    start with one of the two families; the result is [contentIsImage]. *)
Definition classify_content_type (declared : option string) : option bool :=
  match nonempty (option_map toLowerCase declared) with
  | None => None
  | Some resultContentType =>
      if (negb (startsWith resultContentType "text/plain")
          && negb (startsWith resultContentType "image/"))%bool
      then None
      else Some (startsWith resultContentType "image/")
  end.

(** Lines 286-300, "API Response Validation". *)
Definition validate_response (apiResult : Response) : Job bool :=
  if (status apiResult =? 304)%Z then finish unchanged
  else if negb (status apiResult =? 200)%Z then finish (skipped http_error)
  else require (classify_content_type (headers_get apiResult "Content-Type"))
         (skipped invalid_content_type).

(** Line 306: [w.name.toLowerCase() === widgetName]. *)
Definition name_matches (env : Env) (widgetName : string) (w : Widget)
  : bool :=
  String.eqb (String_toLowerCase env (widget_name w)) widgetName.

(** Lines 305-315, "Fetch Existing Widgets". *)
Definition fetch_existing (env : Env) (p : Params) : Job (option Widget) :=
  subWidgets <- await (CGetWidgets (p_subredditName p))
                  (reddit_getWidgets env (p_subredditName p)) ;;
  let nameMatchWidgets :=
    List.filter (name_matches env (p_widgetName p)) subWidgets in
  if Nat.ltb 1 (length nameMatchWidgets) then
    finish (skipped ambiguous_existing)
  else
    match head nameMatchWidgets with
    | Some existingWidget =>
        match widget_class existingWidget with
        | OtherWidget _ => finish (skipped unknown_existing_type)
        | _ => ret (Some existingWidget)
        end
    | None => ret None
    end.

Definition is_ImageWidget (w : Widget) : bool :=
  match widget_class w with
  | ImageWidget => true
  | _ => false
  end.

(** Lines 318-327, "Check Existing Widget Type": a widget of the other
    kind is deleted and forgotten. *)
Definition check_existing_type (env : Env) (p : Params)
    (contentIsImage : bool) (existingWidget : option Widget)
  : Job (option Widget) :=
  match existingWidget with
  | Some w =>
      let existingIsImage := is_ImageWidget w in
      if negb (Bool.eqb existingIsImage contentIsImage) then
        await (CDeleteWidget (p_subredditName p) (widget_id w))
          (reddit_deleteWidget env (p_subredditName p) (widget_id w)) ;;;
        ret None
      else ret (Some w)
  | None => ret None
  end.

(** Lines 332-341, "Image Upload". *)
Definition image_upload (env : Env) (p : Params) (contentIsImage : bool)
  : Job (option MediaAsset) :=
  if contentIsImage then
    mediaAsset <- await (CMediaUpload (fetchUrl_of p) "image")
                    (media_upload env (fetchUrl_of p) "image") ;;
    match mediaAsset with
    | Some a => ret (Some a)
    | None => finish (skipped upload_failed)
    end
  else ret None.

(** Lines 346-364: the object literal, whose [text] field awaits the body
    of the response for text content. *)
Definition build_widgetData (p : Params) (apiResult : Response)
    (contentIsImage : bool) (existingWidget : option Widget)
    (mediaAsset : option MediaAsset) : Job UpdateWidgetData :=
  text <- (if contentIsImage then ret None
           else t <- await CResponseText (body_text apiResult) ;; ret (Some t)) ;;
  ret {| wd_type := if contentIsImage then "image" else "textarea";
         wd_id := option_map widget_id existingWidget;
         wd_subreddit := p_subredditName p;
         wd_shortName := p_widgetName p;
         wd_text := text;
         wd_data := match mediaAsset with
                    | Some a => Some {| url := mediaUrl a; linkUrl := "";
                                        width := 0; height := 0 |}
                    | None => None
                    end;
         wd_styles := {| backgroundColor := ""; headerColor := "" |} |}.

(** Lines 367-381, "Widget Add or Update": the value is the outcome the
    run ends with when nothing fails afterwards. *)
Definition add_or_update (env : Env) (widgetData : UpdateWidgetData)
  : Job Outcome :=
  if truthy_opt (wd_id widgetData) then
    widgetUpdate <- updateWidget env (Some widgetData) (debug_metadata env) ;;
    match widgetUpdate with
    | Some _ => ret updated
    | None => finish (skipped update_failed)
    end
  else
    addedWidget <- await (CAddWidget widgetData)
                     (reddit_addWidget env widgetData) ;;
    match addedWidget with
    | Some _ => ret created
    | None => finish (skipped create_failed)
    end.

(** Lines 386-393, "Save Last Modified". *)
Definition save_last_modified (env : Env) (apiResult : Response) : Job unit :=
  match nonempty (headers_get apiResult "Last-Modified") with
  | Some apiLastModified =>
      redis_set env RedisKeys.SummaryLastModified apiLastModified
  | None => ret tt
  end.

Definition onRun_body (env : Env) : Job Outcome :=
  p <- validate_parameters env ;;
  apiResult <- call_api env p ;;
  contentIsImage <- validate_response apiResult ;;
  found <- fetch_existing env p ;;
  existingWidget <- check_existing_type env p contentIsImage found ;;
  mediaAsset <- image_upload env p contentIsImage ;;
  widgetData <- build_widgetData p apiResult contentIsImage existingWidget
                  mediaAsset ;;
  done <- add_or_update env widgetData ;;
  save_last_modified env apiResult ;;;
  ret done.

(** The job, run on a redis store: its outcome, the store it leaves and
    the calls it made, in order. *)
Definition onRun (env : Env) (store : gmap string string)
  : Outcome * RunState :=
  match onRun_body env {| redis := store; calls := [] |} with
  | (inl o, s) => (o, s)
  | (inr o, s) => (o, s)
  end.

Definition outcome_of (env : Env) (store : gmap string string) : Outcome :=
  fst (onRun env store).
Definition calls_of (env : Env) (store : gmap string string) : list Call :=
  calls (snd (onRun env store)).
Definition store_after (env : Env) (store : gmap string string)
  : gmap string string :=
  redis (snd (onRun env store)).

(* ================================================================== *)
(** ** Reading the calls of a run *)

Definition lists_widgets (c : Call) : bool :=
  match c with CGetWidgets _ _ => true | _ => false end.

Definition deletes_widget (c : Call) : bool :=
  match c with CDeleteWidget _ _ _ => true | _ => false end.

Definition uploads_media (c : Call) : bool :=
  match c with CMediaUpload _ _ _ => true | _ => false end.

Definition updates_widget (c : Call) : bool :=
  match c with
  | CUpdateImageWidget _ _ | CUpdateTextAreaWidget _ _ => true
  | _ => false
  end.

Definition creates_widget (c : Call) : bool :=
  match c with CAddWidget _ _ => true | _ => false end.

Definition creates_or_updates (c : Call) : bool :=
  (creates_widget c || updates_widget c)%bool.

(** A [redis.set] under the last-modified key, settled or not. *)
Definition writes_token (c : Call) : bool :=
  match c with
  | CRedisSet key _ _ => String.eqb key RedisKeys.SummaryLastModified
  | _ => false
  end.

(** The calls the specification counts as side effects of a run: on the
    widget store, the uploader and the cache token. *)
Definition side_effect (c : Call) : bool :=
  (lists_widgets c || deletes_widget c || creates_widget c
   || updates_widget c || uploads_media c || writes_token c)%bool.

(** The calls that change something: every side effect but the listing. *)
Definition mutation (c : Call) : bool :=
  (deletes_widget c || creates_widget c || updates_widget c
   || uploads_media c || writes_token c)%bool.

Definition count (p : Call -> bool) (tr : list Call) : nat :=
  length (List.filter p tr).

(** A call that did not resolve. *)
Definition rejected (c : Call) : bool :=
  match c with
  | CSettingsGet _ (Rejected _) | CRedisGet _ (Rejected _)
  | CFetch _ _ (Rejected _) | CGetWidgets _ (Rejected _)
  | CDeleteWidget _ _ (Rejected _) | CMediaUpload _ _ (Rejected _)
  | CResponseText (Rejected _) | CUpdateImageWidget _ (Rejected _)
  | CUpdateTextAreaWidget _ (Rejected _) | CAddWidget _ (Rejected _)
  | CRedisSet _ _ (Rejected _) => true
  | _ => false
  end.

(** The response the run obtained from [fetch], if it got one. *)
Fixpoint response_of (tr : list Call) : option Response :=
  match tr with
  | [] => None
  | CFetch _ _ (Resolved r) :: _ => Some r
  | _ :: rest => response_of rest
  end.

(** The last-modified indicator of the fetched response: the value of its
    [Last-Modified] header when the [if (apiLastModified)] of line 387
    takes it, that is when it is not empty. *)
Definition last_modified_indicator (tr : list Call) : option string :=
  match response_of tr with
  | Some r => nonempty (headers_get r "Last-Modified")
  | None => None
  end.

Definition reconciled (o : Outcome) : bool :=
  match o with
  | updated | created => true
  | _ => false
  end.

(** "Matches the target name case-insensitively": equal once both are
    lower-cased, by the lower-casing of the runtime. *)
Definition same_name (env : Env) (target : string) (w : Widget) : bool :=
  String.eqb (String_toLowerCase env (widget_name w))
    (String_toLowerCase env target).

(** How a run ends when the response does not pass the validation of
    lines 286-296 for want of an accepted content type. *)
Definition ends_at_validation (r : Response) : Outcome :=
  if (status r =? 304)%Z then unchanged
  else if (status r =? 200)%Z then skipped invalid_content_type
  else skipped http_error.

(* ================================================================== *)
(** ** Case analysis of a run *)

Ltac job_cbv_in H :=
  cbv [onRun onRun_body validate_parameters
       call_api validate_response fetch_existing check_existing_type
       image_upload build_widgetData add_or_update save_last_modified
       updateWidget redis_get redis_set await require finish throw bind ret
       record fst snd calls redis app is_ImageWidget option_map truthy_opt
       wd_id wd_type negb Bool.eqb String.eqb Ascii.eqb
       p_subredditName p_widgetName p_widgetDomain] in H.

(** The first test on which the evaluation of [t] is stuck. *)
Ltac stuck_on t :=
  lazymatch t with
  | match ?x with _ => _ end => stuck_on x
  | (match ?x with _ => _ end) _ => stuck_on x
  | _ => t
  end.

Ltac run_step_in H :=
  match type of H with
  | context [match ?x with _ => _ end] =>
      let y := stuck_on x in destruct y eqn:?
  end.

(** Symbolic execution of the job: one goal per path through it, in which
    the outcome, the calls and the final store of the run are spelled
    out, and the tests taken on the path are hypotheses. *)
Ltac run_cases :=
  unfold outcome_of, calls_of, store_after in *;
  match goal with
  | |- context [onRun ?env ?store] =>
      let Hrun := fresh "Hrun" in
      let o := fresh "o" in
      let s := fresh "s" in
      destruct (onRun env store) as [o s] eqn:Hrun;
      cbn [fst snd] in *;
      job_cbv_in Hrun;
      repeat (run_step_in Hrun; job_cbv_in Hrun);
      injection Hrun as <- <-;
      cbn [calls redis] in *
  end.

(** Membership of a call in the calls of a path. *)
Ltac in_calls H :=
  cbn [In] in H;
  repeat (destruct H as [H | H]; [try discriminate H |]);
  try contradiction;
  repeat match goal with
    | E : @eq Call _ _ |- _ => injection E as ?; subst
    | E : Resolved _ = Resolved _ |- _ => injection E as ?; subst
    | E : Some _ = Some _ |- _ => injection E as ?; subst
    end.

(** The integer tests of the path, as equations. *)
Ltac status_tests :=
  repeat match goal with
    | H : (_ =? _)%Z = true |- _ => apply Z.eqb_eq in H
    | H : (_ =? _)%Z = false |- _ => apply Z.eqb_neq in H
    end.

(** A call of a concrete run. *)
Ltac find_call := vm_compute; repeat (first [left; reflexivity | right]).

(* ================================================================== *)
(** ** Concrete platforms, to run the job on *)

Module Examples.

Definition settings (k : string) : reply (option string) :=
  if String.eqb k SettingKeys.SummaryWidgetName
  then Resolved (Some "Tropical Summary")
  else if String.eqb k SettingKeys.SummaryWidgetDomain
  then Resolved (Some "rhurricane.net")
  else Resolved None.

Definition header (name : string) (value : option string)
    (h : gmap string string) : gmap string string :=
  match value with
  | Some v => <[name := v]> h
  | None => h
  end.

Definition response (code : Z) (contentType lastModified : option string)
  : Response :=
  {| status := code;
     statusText := "";
     headers := header "content-type" contentType
                  (header "last-modified" lastModified ∅);
     body_text := Resolved "Tropical weather outlook" |}.

(** A platform whose calls all resolve: [fetch] to [resp], the listing
    to [ws], the upload to [asset], the update to [upd], the add to
    [add]. *)
Definition platform (resp : Response) (ws : list Widget)
    (asset : option MediaAsset) (upd add : option WidgetResponse) : Env :=
  {| subredditName := Some "hurricane";
     debug_metadata := [];
     settings_get := settings;
     redis_get_rejects := None;
     redis_set_rejects := None;
     fetch := fun _ _ => Resolved resp;
     reddit_getWidgets := fun _ => Resolved ws;
     reddit_deleteWidget := fun _ _ => Resolved tt;
     media_upload := fun _ _ => Resolved asset;
     Widgets_UpdateImageWidget := fun _ _ => Resolved upd;
     Widgets_UpdateTextAreaWidget := fun _ _ => Resolved upd;
     reddit_addWidget := fun _ => Resolved add;
     String_toLowerCase := toLowerCase;
     toLowerCase_truthy := truthy_toLowerCase |}.

Definition fetchUrl : string := "https://rhurricane.net/api/v1".
Definition stamp1 : string := "Mon, 02 Nov 2026 06:00:00 GMT".
Definition stamp2 : string := "Tue, 03 Nov 2026 06:00:00 GMT".

(** A store that holds a token from an earlier run. *)
Definition cached : gmap string string :=
  <[RedisKeys.SummaryLastModified := stamp1]> ∅.

Definition text_widget : Widget :=
  {| widget_id := "widget_t1";
     widget_name := "Tropical SUMMARY";
     widget_class := TextAreaWidget |}.

Definition image_widget : Widget :=
  {| widget_id := "widget_i1";
     widget_name := "tropical summary";
     widget_class := ImageWidget |}.

Definition other_widget : Widget :=
  {| widget_id := "widget_r1";
     widget_name := "Rules";
     widget_class := OtherWidget "subreddit-rules" |}.

Definition asset : MediaAsset :=
  {| mediaId := "m1"; mediaUrl := "https://i.redd.it/m1.png" |}.

Definition persisted (id : string) : option WidgetResponse :=
  Some {| response_id := id |}.

Definition not_modified : Response := response 304 None None.
Definition fresh_text : Response :=
  response 200 (Some "text/plain; charset=utf-8") (Some stamp2).
Definition fresh_image : Response :=
  response 200 (Some "image/png") (Some stamp2).
Definition no_content : Response :=
  response 204 (Some "text/plain") (Some stamp2).
Definition server_error : Response :=
  response 500 (Some "text/html") None.
Definition fresh_json : Response :=
  response 200 (Some "application/json") (Some stamp2).
Definition fresh_untyped : Response := response 200 None (Some stamp2).
Definition fresh_upper_image : Response :=
  response 200 (Some "IMAGE/PNG") (Some stamp2).

(** A text response whose [Last-Modified] header is there but empty. *)
Definition fresh_text_unstamped : Response :=
  response 200 (Some "text/plain") (Some "").

(** A listed widget whose [id] is the empty string. *)
Definition unsaved_widget : Widget :=
  {| widget_id := "";
     widget_name := "Tropical Summary";
     widget_class := TextAreaWidget |}.

(** Text content over an existing text widget, every call succeeding. *)
Definition text_over_text : Env :=
  platform fresh_text [other_widget; text_widget] None
    (persisted "widget_t1") None.

(** The same, the update reporting failure. *)
Definition text_over_text_update_fails : Env :=
  platform fresh_text [other_widget; text_widget] None None None.

(** Text content over a listed widget without id. *)
Definition text_over_unsaved : Env :=
  platform fresh_text [unsaved_widget] None (persisted "widget_t1")
    (persisted "widget_n1").

(** Text content over an existing image widget. *)
Definition text_over_image : Env :=
  platform fresh_text [image_widget] None None (persisted "widget_n1").

(** Image content over an existing text widget, the upload yielding
    nothing. *)
Definition image_over_text_upload_fails : Env :=
  platform fresh_image [text_widget] None None (persisted "widget_n1").

(** Two widgets carry the target name. *)
Definition two_same_named : Env :=
  platform fresh_text [text_widget; other_widget; image_widget] None
    (persisted "widget_t1") (persisted "widget_n1").

(** No widget yet; the add and the upload succeed. *)
Definition first_run (resp : Response) : Env :=
  platform resp [other_widget] (Some asset) None (persisted "widget_n1").

End Examples.

(* ================================================================== *)
(** ** The order of the calls of a run *)

(** The place of a call in the text of the job: the two settings, the
    stored token, the fetch, the listing, the delete, the upload, the body,
    the update or the add, the token. *)
Definition stage (c : Call) : nat :=
  match c with
  | CSettingsGet key _ =>
      if String.eqb key SettingKeys.SummaryWidgetName then 0 else 1
  | CRedisGet _ _ => 2
  | CFetch _ _ _ => 3
  | CGetWidgets _ _ => 4
  | CDeleteWidget _ _ _ => 5
  | CMediaUpload _ _ _ => 6
  | CResponseText _ => 7
  | CUpdateImageWidget _ _ | CUpdateTextAreaWidget _ _ | CAddWidget _ _ => 8
  | CRedisSet _ _ _ => 9
  end%nat.

(** [stage] grows strictly along the list. *)
Fixpoint ascending (bound : option nat) (l : list nat) : bool :=
  match l with
  | [] => true
  | n :: rest =>
      (match bound with
       | Some b => Nat.ltb b n
       | None => true
       end && ascending (Some n) rest)%bool
  end.

(** The list the run obtained from [getWidgets], if it got one. *)
Fixpoint listed (tr : list Call) : option (list Widget) :=
  match tr with
  | [] => None
  | CGetWidgets _ (Resolved ws) :: _ => Some ws
  | _ :: rest => listed rest
  end.

(** The widget name the run read from the settings, if it read one. *)
Fixpoint target_name (tr : list Call) : option string :=
  match tr with
  | [] => None
  | CSettingsGet key (Resolved (Some name)) :: rest =>
      if String.eqb key SettingKeys.SummaryWidgetName then Some name
      else target_name rest
  | _ :: rest => target_name rest
  end.

(** The reason of a call that did not resolve. *)
Definition rejection_of (c : Call) : option string :=
  match c with
  | CSettingsGet _ (Rejected e) | CRedisGet _ (Rejected e)
  | CFetch _ _ (Rejected e) | CGetWidgets _ (Rejected e)
  | CDeleteWidget _ _ (Rejected e) | CMediaUpload _ _ (Rejected e)
  | CResponseText (Rejected e) | CUpdateImageWidget _ (Rejected e)
  | CUpdateTextAreaWidget _ (Rejected e) | CAddWidget _ (Rejected e)
  | CRedisSet _ _ (Rejected e) => Some e
  | _ => None
  end.

(** An upload that resolved, to no asset: [mediaAsset] of line 339 is
    falsy. *)
Definition yields_no_asset (c : Call) : bool :=
  match c with
  | CMediaUpload _ _ (Resolved None) => true
  | _ => false
  end.

(** Image content on a subreddit without the widget, the upload
    rejecting. *)
Definition upload_rejects : Env :=
  {| subredditName := Some "hurricane";
     debug_metadata := [];
     settings_get := Examples.settings;
     redis_get_rejects := None;
     redis_set_rejects := None;
     fetch := fun _ _ => Resolved Examples.fresh_image;
     reddit_getWidgets := fun _ => Resolved [Examples.other_widget];
     reddit_deleteWidget := fun _ _ => Resolved tt;
     media_upload := fun _ _ => Rejected "media service unavailable";
     Widgets_UpdateImageWidget := fun _ _ => Resolved None;
     Widgets_UpdateTextAreaWidget := fun _ _ => Resolved None;
     reddit_addWidget := fun _ => Resolved None;
     String_toLowerCase := toLowerCase;
     toLowerCase_truthy := truthy_toLowerCase |}.

(** A widget of another class that carries the target name. *)
Definition calendar : Widget :=
  {| widget_id := "widget_c1";
     widget_name := "TROPICAL summary";
     widget_class := OtherWidget "calendar" |}.

Definition calendar_named_like_target : Env :=
  Examples.platform Examples.fresh_text [Examples.other_widget; calendar]
    None (Examples.persisted "widget_c1") (Examples.persisted "widget_n1").



(** A lower-casing that, besides the ASCII letters, folds the capital
    letters of the Latin-1 supplement in UTF-8 text, as the Unicode tables
    do: the byte 195 followed by a byte from 128 to 158, the multiplication
    sign (151) apart. *)
Definition lower_latin1_second (c : ascii) : ascii :=
  let n := nat_of_ascii c in
  if (Nat.leb 128 n && Nat.leb n 158 && negb (Nat.eqb n 151))%bool
  then ascii_of_nat (n + 32) else c.

Fixpoint lower_latin1 (s : string) : string :=
  match s with
  | EmptyString => EmptyString
  | String c r =>
      String (lower_ascii c)
        (if Nat.eqb (nat_of_ascii c) 195 then
           match r with
           | EmptyString => EmptyString
           | String d r' => String (lower_latin1_second d) (lower_latin1 r')
           end
         else lower_latin1 r)
  end.

Definition truthy_lower_latin1 (s : string)
  : truthy (lower_latin1 s) = truthy s :=
  match s with
  | EmptyString => eq_refl
  | String _ _ => eq_refl
  end.

(** The first letter of the name in capital, the two accented letters in
    lower case. *)
Definition resume_setting : string := "Résumé".

Definition resume_lower : Widget :=
  {| widget_id := "widget_a1";
     widget_name := "résumé";
     widget_class := TextAreaWidget |}.

Definition resume_upper : Widget :=
  {| widget_id := "widget_a2";
     widget_name := "RÉSUMÉ";
     widget_class := TextAreaWidget |}.

(** Text content on a subreddit whose widgets carry accented names, under
    a runtime that folds the accented capitals. *)
Definition accented_names (ws : list Widget) : Env :=
  {| subredditName := Some "hurricane";
     debug_metadata := [];
     settings_get := fun k =>
       if String.eqb k SettingKeys.SummaryWidgetName
       then Resolved (Some resume_setting)
       else Examples.settings k;
     redis_get_rejects := None;
     redis_set_rejects := None;
     fetch := fun _ _ => Resolved Examples.fresh_text;
     reddit_getWidgets := fun _ => Resolved ws;
     reddit_deleteWidget := fun _ _ => Resolved tt;
     media_upload := fun _ _ => Resolved None;
     Widgets_UpdateImageWidget := fun _ _ => Resolved None;
     Widgets_UpdateTextAreaWidget :=
       fun _ _ => Resolved (Examples.persisted "widget_a2");
     reddit_addWidget := fun _ => Resolved (Examples.persisted "widget_n1");
     String_toLowerCase := lower_latin1;
     toLowerCase_truthy := truthy_lower_latin1 |}.

(** The widget data of a store call. *)
Definition stored_data (c : Call) : option UpdateWidgetData :=
  match c with
  | CUpdateImageWidget wd _ | CUpdateTextAreaWidget wd _ | CAddWidget wd _ =>
      Some wd
  | _ => None
  end.

(* ================================================================== *)
(** ** Settings validators (lines 49-52 and 75-80) *)

(** [onValidate] of the widget name: the message, or nothing when the
    value is accepted. *)
Definition validate_widget_name (value : option string) : option string :=
  if negb (truthy_opt value) then Some "Must provide a widget name" else None.

(** [onValidate] of the update frequency, at integer values.  With no
    value both comparisons of [undefined] are false and nothing is
    returned. *)
Definition validate_update_frequency (value : option Z) : option string :=
  match value with
  | Some v =>
      if (v <? 1)%Z then Some "Frequency must be at least 1"
      else if (v >? 60)%Z then Some "Frequency less than 60"
      else None
  | None => None
  end.

(* ================================================================== *)
(** ** Scheduling: the upgrade trigger and the two menu items *)

Module ScheduledJobKeys.
Definition SummaryUpdateJob : string := "summary-update".
End ScheduledJobKeys.

(** The integers a JavaScript number holds exactly.  A template literal
    prints each of them in decimal, as [pretty] does; the settings form
    admits the integers from 1 to 60. *)
Definition MAX_SAFE_INTEGER : Z := 9007199254740991.

Definition isSafeInteger (n : Z) : bool :=
  ((- MAX_SAFE_INTEGER <=? n)%Z && (n <=? MAX_SAFE_INTEGER)%Z)%bool.

(** Lines 111-115 and 163-167, the same text in both handlers: the cron
    expression of a frequency in minutes, at the integers of
    [isSafeInteger]. *)
Definition cron_expression (freq : Z) : string :=
  if (freq =? 1)%Z then "* * * * *"
  else if (freq =? 60)%Z then "0 * * * *"
  else "*/" +:+ pretty freq +:+ " * * * *".

(** A job as [listJobs] reports it. *)
Record ScheduledJob : Type := {
  job_id : string;
  job_name : string
}.

(** The argument of [runJob]; its [data] is the empty object. *)
Record JobRequest : Type := {
  req_cron : string;
  req_name : string
}.

Inductive Appearance : Type :=
| neutral
| success.

(** The platform as the three handlers meet it.  Redis is the store
    threaded through the handler; the host only says whether a redis
    operation rejects. *)
Record Host : Type := {
  host_redis_get_rejects : option string;
  host_redis_set_rejects : option string;
  host_redis_del_rejects : option string;
  scheduler_listJobs : reply (list ScheduledJob);
  settings_get_number : string -> reply (option Z);
  scheduler_runJob : JobRequest -> reply string;
  scheduler_cancelJob : string -> reply unit
}.

(** What a handler does to the platform and to the moderator's screen. *)
Inductive Effect : Type :=
| ERedisGet (key : string) (r : reply (option string))
| EListJobs (r : reply (list ScheduledJob))
| ESettingsGet (key : string) (r : reply (option Z))
| ERunJob (req : JobRequest) (r : reply string)
| ERedisSet (key value : string) (r : reply unit)
| ECancelJob (id : string) (r : reply unit)
| ERedisDel (key : string) (r : reply unit)
| EToast (text : string) (appearance : Appearance).

(** The points at which a handler ends. *)
Inductive Handled : Type :=
| job_not_scheduled                 (* trigger, line 95 *)
| job_found                         (* trigger, line 104 *)
| job_restarted                     (* trigger, line 127 *)
| trigger_failed (reason : string)  (* trigger, line 130 *)
| already_running                   (* start, line 154 *)
| job_started                       (* start, line 185 *)
| not_running                       (* stop, line 216 *)
| job_stopped                       (* stop, line 232 *)
| press_failed (reason : string) (errCtx : Z).   (* lines 188, 235 *)

Record HostState : Type := {
  h_redis : gmap string string;
  h_effects : list Effect;
  h_errCtx : Z
}.

Inductive Exit : Type :=
| Return (o : Handled)
| Raise (reason : string).

Definition Handler (A : Type) : Type :=
  HostState -> (A + Exit) * HostState.

Definition h_ret {A} (a : A) : Handler A := fun s => (inl a, s).

Definition h_bind {A B} (m : Handler A) (k : A -> Handler B) : Handler B :=
  fun s =>
    match m s with
    | (inl a, s') => k a s'
    | (inr e, s') => (inr e, s')
    end.

Notation "x <~ m ;; k" := (h_bind m (fun x => k))
  (at level 100, m at next level, right associativity).
Notation "m ~;; k" := (h_bind m (fun _ => k))
  (at level 100, right associativity).

(** [return] inside the [try]. *)
Definition h_return {A} (o : Handled) : Handler A :=
  fun s => (inr (Return o), s).

Definition h_record (e : Effect) (s : HostState) : HostState :=
  {| h_redis := h_redis s;
     h_effects := h_effects s ++ [e];
     h_errCtx := h_errCtx s |}.

Definition h_await {A} (e : reply A -> Effect) (r : reply A) : Handler A :=
  fun s =>
    match r with
    | Resolved a => (inl a, h_record (e r) s)
    | Rejected reason => (inr (Raise reason), h_record (e r) s)
    end.

(** [errCtx = n]. *)
Definition set_errCtx (n : Z) : Handler unit :=
  fun s =>
    (inl tt,
     {| h_redis := h_redis s; h_effects := h_effects s; h_errCtx := n |}).

(** [context.ui.showToast({text, appearance})]: a synchronous call on the
    moderator's screen, taken not to throw. *)
Definition showToast (text : string) (appearance : Appearance)
  : Handler unit :=
  fun s => (inl tt, h_record (EToast text appearance) s).

Definition h_redis_get (host : Host) (key : string)
  : Handler (option string) :=
  fun s =>
    let r := match host_redis_get_rejects host with
             | Some e => Rejected e
             | None => Resolved (h_redis s !! key)
             end in
    h_await (ERedisGet key) r s.

Definition h_redis_set (host : Host) (key value : string) : Handler unit :=
  fun s =>
    match host_redis_set_rejects host with
    | Some e => (inr (Raise e), h_record (ERedisSet key value (Rejected e)) s)
    | None =>
        (inl tt,
         h_record (ERedisSet key value (Resolved tt))
           {| h_redis := <[key := value]> (h_redis s);
              h_effects := h_effects s;
              h_errCtx := h_errCtx s |})
    end.

(** [await context.redis.del(key)]: a rejected del removes nothing. *)
Definition h_redis_del (host : Host) (key : string) : Handler unit :=
  fun s =>
    match host_redis_del_rejects host with
    | Some e => (inr (Raise e), h_record (ERedisDel key (Rejected e)) s)
    | None =>
        (inl tt,
         h_record (ERedisDel key (Resolved tt))
           {| h_redis := delete key (h_redis s);
              h_effects := h_effects s;
              h_errCtx := h_errCtx s |})
    end.

(** [jobs.find(j => j.name === ScheduledJobKeys.SummaryUpdateJob)]. *)
Definition find_summary_job (jobs : list ScheduledJob) : option ScheduledJob :=
  List.find
    (fun j => String.eqb (job_name j) ScheduledJobKeys.SummaryUpdateJob) jobs.

(** [await context.settings.get<number>(...) ?? 1], then the cron
    expression, then [runJob] and the storing of the job id: lines 108-125
    and, with [errCtx] advanced as given, lines 158-178. *)
Definition schedule_job (host : Host) (before_get before_exp before_run
    : Handler unit) : Handler string :=
  before_get ~;;
  setting <~ h_await (ESettingsGet SettingKeys.SummaryUpdateFrequency)
               (settings_get_number host SettingKeys.SummaryUpdateFrequency) ;;
  let freq := match setting with Some v => v | None => 1%Z end in
  before_exp ~;;
  let exp := cron_expression freq in
  before_run ~;;
  let request := {| req_cron := exp;
                    req_name := ScheduledJobKeys.SummaryUpdateJob |} in
  jobId <~ h_await (ERunJob request) (scheduler_runJob host request) ;;
  h_redis_set host RedisKeys.SummaryUpdateJob jobId ~;;
  h_ret jobId.

(** A handler with its [try]/[catch], started on a store; [errCtx] is
    initialised to 1 where the handler declares it. *)
Definition handle (body : Handler Handled)
    (catch : string -> HostState -> Handled * HostState)
    (store : gmap string string) : Handled * HostState :=
  match body {| h_redis := store; h_effects := []; h_errCtx := 1 |} with
  | (inl o, s) => (o, s)
  | (inr (Return o), s) => (o, s)
  | (inr (Raise reason), s) => catch reason s
  end.

(** Lines 85-133: the [AppUpgrade] trigger. *)
Definition onAppUpgrade (host : Host) (store : gmap string string)
  : Handled * HostState :=
  handle
    (isScheduled <~ h_redis_get host RedisKeys.SummaryUpdateJob ;;
     (if truthy_opt isScheduled then h_ret tt
      else h_return job_not_scheduled) ~;;
     jobs <~ h_await EListJobs (scheduler_listJobs host) ;;
     match find_summary_job jobs with
     | Some _ => h_return job_found
     | None =>
         schedule_job host (h_ret tt) (h_ret tt) (h_ret tt) ~;;
         h_ret job_restarted
     end)
    (fun reason s => (trigger_failed reason, s))
    store.

(** The toast of the two [catch] blocks of the menu items. *)
Definition toast_error (doing : string) (reason : string) (s : HostState)
  : Handled * HostState :=
  (press_failed reason (h_errCtx s),
   h_record
     (EToast ("There was an error (" +:+ pretty (h_errCtx s) +:+ ") while "
              +:+ doing +:+ " the Summary Widget update job.") neutral) s).

(** Lines 137-195: the menu item "Summary Widget - Start". *)
Definition onPressStart (host : Host) (store : gmap string string)
  : Handled * HostState :=
  handle
    (jobs <~ h_await EListJobs (scheduler_listJobs host) ;;
     set_errCtx 2 ~;;
     match find_summary_job jobs with
     | Some _ =>
         showToast "Summary Widget updates are already running." neutral ~;;
         h_return already_running
     | None =>
         jobId <~ schedule_job host (set_errCtx 3) (set_errCtx 4)
                    (set_errCtx 5) ;;
         showToast ("Summary Widget updates scheduled! ID: " +:+ jobId)
           success ~;;
         h_ret job_started
     end)
    (toast_error "scheduling")
    store.

(** Lines 199-242: the menu item "Summary Widget - Stop". *)
Definition onPressStop (host : Host) (store : gmap string string)
  : Handled * HostState :=
  handle
    (jobs <~ h_await EListJobs (scheduler_listJobs host) ;;
     set_errCtx 2 ~;;
     match find_summary_job jobs with
     | None =>
         showToast "Summary Widget updates are not currently scheduled."
           neutral ~;;
         h_return not_running
     | Some scheduledJob =>
         set_errCtx 3 ~;;
         h_await (ECancelJob (job_id scheduledJob))
           (scheduler_cancelJob host (job_id scheduledJob)) ~;;
         set_errCtx 4 ~;;
         h_redis_del host RedisKeys.SummaryUpdateJob ~;;
         showToast "Summary Widget updates stopped!" success ~;;
         h_ret job_stopped
     end)
    (toast_error "stopping")
    store.

Definition handled (r : Handled * HostState) : Handled := fst r.
Definition effects_of (r : Handled * HostState) : list Effect :=
  h_effects (snd r).
Definition store_of (r : Handled * HostState) : gmap string string :=
  h_redis (snd r).

Definition is_toast (e : Effect) : bool :=
  match e with EToast _ _ => true | _ => false end.

Definition is_runJob (e : Effect) : bool :=
  match e with ERunJob _ _ => true | _ => false end.


Definition is_redis_write (e : Effect) : bool :=
  match e with ERedisSet _ _ _ | ERedisDel _ _ => true | _ => false end.

(** Hosts to run the handlers on. *)
Module Hosts.

Definition summary_job : ScheduledJob :=
  {| job_id := "job-7"; job_name := "summary-update" |}.

Definition other_job : ScheduledJob :=
  {| job_id := "job-3"; job_name := "flair-sweep" |}.

(** A host whose calls all resolve: [listJobs] to [jobs], the frequency
    setting to [freq], [runJob] to the id [id]. *)
Definition host (jobs : list ScheduledJob) (freq : option Z) (id : string)
  : Host :=
  {| host_redis_get_rejects := None;
     host_redis_set_rejects := None;
     host_redis_del_rejects := None;
     scheduler_listJobs := Resolved jobs;
     settings_get_number := fun _ => Resolved freq;
     scheduler_runJob := fun _ => Resolved id;
     scheduler_cancelJob := fun _ => Resolved tt |}.

(** The same, [cancelJob] rejecting. *)
Definition host_cancel_rejects (jobs : list ScheduledJob) : Host :=
  {| host_redis_get_rejects := None;
     host_redis_set_rejects := None;
     host_redis_del_rejects := None;
     scheduler_listJobs := Resolved jobs;
     settings_get_number := fun _ => Resolved None;
     scheduler_runJob := fun _ => Resolved "job-9";
     scheduler_cancelJob := fun _ => Rejected "scheduler unavailable" |}.

(** A store that remembers a scheduled job. *)
Definition armed : gmap string string :=
  <[RedisKeys.SummaryUpdateJob := "job-7"]> ∅.

End Hosts.

(* ================================================================== *)
(** ** Facts about the string tests *)

Lemma nonempty_Some (o : option string) (s : string) :
  nonempty o = Some s -> o = Some s /\ truthy s = true.
Proof.
  destruct o as [t |]; cbn; [| discriminate].
  destruct (truthy t) eqn:E; [| discriminate].
  intros [= <-]. split; [reflexivity | exact E].
Qed.

Lemma nonempty_truthy (s : string) :
  truthy s = true -> nonempty (Some s) = Some s.
Proof. intros H. cbn. rewrite H. reflexivity. Qed.

(** The name the run compares with is the lower-cased setting. *)
Lemma widgetName_of_setting (env : Env) (target s : string) :
  nonempty (option_map (String_toLowerCase env) (Some target)) = Some s ->
  s = String_toLowerCase env target.
Proof. intros H. apply nonempty_Some in H as [[= <-] _]. reflexivity. Qed.

(** The filter of line 306 keeps the widgets of the same name, letter case
    apart. *)
Lemma name_matches_same_name (env : Env) (target : string)
    (ws : list Widget) :
  List.filter (name_matches env (String_toLowerCase env target)) ws
  = List.filter (same_name env target) ws.
Proof. reflexivity. Qed.

Lemma lower_ascii_idem (c : ascii) :
  lower_ascii (lower_ascii c) = lower_ascii c.
Proof.
  destruct c as [[] [] [] [] [] [] [] []]; reflexivity.
Qed.

Lemma toLowerCase_idem (s : string) :
  toLowerCase (toLowerCase s) = toLowerCase s.
Proof.
  induction s as [| c s IH]; cbn; [reflexivity |].
  rewrite lower_ascii_idem, IH. reflexivity.
Qed.

(** No string starts with both families. *)
Lemma text_plain_is_not_image (s : string) :
  startsWith s "text/plain" = true -> startsWith s "image/" = false.
Proof.
  unfold startsWith.
  destruct s as [| c s]; cbn [String.prefix]; [discriminate |].
  destruct (ascii_dec "t" c) as [Ht |]; [| discriminate].
  destruct (ascii_dec "i" c) as [Hi |]; [| reflexivity].
  rewrite <- Ht in Hi. discriminate Hi.
Qed.

Lemma classify_lowercase (declared : string) :
  classify_content_type (Some (toLowerCase declared))
  = classify_content_type (Some declared).
Proof.
  unfold classify_content_type. cbn [option_map].
  rewrite toLowerCase_idem. reflexivity.
Qed.

Lemma classify_image (declared : string) :
  startsWith (toLowerCase declared) "image/" = true ->
  classify_content_type (Some declared) = Some true.
Proof.
  intros H. unfold classify_content_type. cbn [option_map].
  rewrite nonempty_truthy.
  - rewrite H, andb_false_r. reflexivity.
  - destruct (toLowerCase declared); [discriminate H | reflexivity].
Qed.

Lemma classify_text (declared : string) :
  startsWith (toLowerCase declared) "text/plain" = true ->
  classify_content_type (Some declared) = Some false.
Proof.
  intros H. unfold classify_content_type. cbn [option_map].
  rewrite nonempty_truthy.
  - rewrite H, (text_plain_is_not_image _ H). reflexivity.
  - destruct (toLowerCase declared); [discriminate H | reflexivity].
Qed.

Lemma classify_unaccepted (declared : string) :
  startsWith (toLowerCase declared) "text/plain" = false ->
  startsWith (toLowerCase declared) "image/" = false ->
  classify_content_type (Some declared) = None.
Proof.
  intros Ht Hi. unfold classify_content_type. cbn [option_map].
  destruct (nonempty (Some (toLowerCase declared))) as [t |] eqn:E;
    [| reflexivity].
  apply nonempty_Some in E as [[= <-] _]. rewrite Ht, Hi. reflexivity.
Qed.

(** What the run knows of the target name once the setting is read. *)
Ltac target_known :=
  match goal with
  | H : nonempty _ = Some ?s |- _ =>
      apply widgetName_of_setting in H; subst s;
      rewrite ?name_matches_same_name in *
  end.

(** The listing holds one widget of the target name. *)
Ltac only_match Hone :=
  rewrite Hone in *; cbn [head length Nat.ltb Nat.leb] in *; simplify_eq.

(** The calls of a path, cut at the delete. *)
Ltac split_at_delete :=
  match goal with
  | |- exists before r after,
        ?c1 :: ?c2 :: ?c3 :: ?c4 :: ?c5 :: CDeleteWidget _ _ ?r0 :: ?rest = _
        /\ _ =>
      exists [c1; c2; c3; c4; c5], r0, rest
  end.

(* ================================================================== *)
(** ** A run that stops at the validation of the response *)

(** When the content type of the fetched response is not classified, the
    run ends with the fetch: its outcome is decided by the status alone,
    nothing is listed, changed or uploaded, and the store is kept. *)
Lemma unclassified_run (env : Env) (store : gmap string string)
    (fetchUrl : string) (ifModifiedSince : option string) (resp : Response) :
  In (CFetch fetchUrl ifModifiedSince (Resolved resp)) (calls_of env store) ->
  classify_content_type (headers_get resp "Content-Type") = None ->
  outcome_of env store = ends_at_validation resp /\
  last (calls_of env store)
    = Some (CFetch fetchUrl ifModifiedSince (Resolved resp)) /\
  existsb side_effect (calls_of env store) = false /\
  store_after env store = store.
Proof.
  intros Hin Hnone. unfold ends_at_validation.
  run_cases; in_calls Hin; try congruence;
    repeat match goal with
      | H : (status _ =? _)%Z = _ |- _ => rewrite H
      end;
    repeat split; reflexivity.
Qed.

Lemma ends_at_validation_200 (resp : Response) :
  status resp = 200 -> ends_at_validation resp = skipped invalid_content_type.
Proof. intros H. unfold ends_at_validation. rewrite H. reflexivity. Qed.

(* ================================================================== *)
(** ** Sample runs *)

(** Names are compared as the runtime lower-cases them: under a runtime
    that folds the accented capitals, the widget written in capitals is the
    one of the target name and is updated in place, and two widgets whose
    names differ in the case of the accented letters are ambiguous. *)
Example run_accented_names :
  List.filter (same_name (accented_names [resume_upper]) resume_setting)
    [resume_upper] = [resume_upper] /\
  outcome_of (accented_names [resume_upper]) Examples.cached = updated /\
  existsb creates_widget
    (calls_of (accented_names [resume_upper]) Examples.cached) = false /\
  outcome_of (accented_names [resume_lower; resume_upper]) Examples.cached
  = skipped ambiguous_existing.
Proof. repeat split; vm_compute; reflexivity. Qed.

(** Text content over the text widget of the target name: the body is
    read, the widget is updated under its [id], the token is stored. *)
Example run_text_over_text :
  onRun Examples.text_over_text Examples.cached
  = (updated,
     {| redis := <[RedisKeys.SummaryLastModified := Examples.stamp2]>
                   Examples.cached;
        calls :=
          [CSettingsGet "summary-widget-name"
             (Resolved (Some "Tropical Summary"));
           CSettingsGet "summary-widget-domain"
             (Resolved (Some "rhurricane.net"));
           CRedisGet "summary:widget:last_modified"
             (Resolved (Some Examples.stamp1));
           CFetch "https://rhurricane.net/api/v1" (Some Examples.stamp1)
             (Resolved Examples.fresh_text);
           CGetWidgets "hurricane"
             (Resolved [Examples.other_widget; Examples.text_widget]);
           CResponseText (Resolved "Tropical weather outlook");
           CUpdateTextAreaWidget
             {| wd_type := "textarea";
                wd_id := Some "widget_t1";
                wd_subreddit := "hurricane";
                wd_shortName := "tropical summary";
                wd_text := Some "Tropical weather outlook";
                wd_data := None;
                wd_styles := {| backgroundColor := ""; headerColor := "" |} |}
             (Resolved (Examples.persisted "widget_t1"));
           CRedisSet "summary:widget:last_modified" Examples.stamp2
             (Resolved tt)] |}).
Proof. vm_compute. reflexivity. Qed.

(** Image content on a subreddit without the widget: upload, then add. *)
Example run_first_image :
  onRun (Examples.first_run Examples.fresh_image) ∅
  = (created,
     {| redis := <[RedisKeys.SummaryLastModified := Examples.stamp2]> ∅;
        calls :=
          [CSettingsGet "summary-widget-name"
             (Resolved (Some "Tropical Summary"));
           CSettingsGet "summary-widget-domain"
             (Resolved (Some "rhurricane.net"));
           CRedisGet "summary:widget:last_modified" (Resolved None);
           CFetch "https://rhurricane.net/api/v1" None
             (Resolved Examples.fresh_image);
           CGetWidgets "hurricane" (Resolved [Examples.other_widget]);
           CMediaUpload "https://rhurricane.net/api/v1" "image"
             (Resolved (Some Examples.asset));
           CAddWidget
             {| wd_type := "image";
                wd_id := None;
                wd_subreddit := "hurricane";
                wd_shortName := "tropical summary";
                wd_text := None;
                wd_data := Some {| url := "https://i.redd.it/m1.png";
                                   linkUrl := ""; width := 0; height := 0 |};
                wd_styles := {| backgroundColor := ""; headerColor := "" |} |}
             (Resolved (Examples.persisted "widget_n1"));
           CRedisSet "summary:widget:last_modified" Examples.stamp2
             (Resolved tt)] |}).
Proof. vm_compute. reflexivity. Qed.

(** An empty [Last-Modified] value fails the test of line 387: the widget
    is updated and the token of the earlier run stays. *)
Example run_empty_last_modified :
  outcome_of
    (Examples.platform Examples.fresh_text_unstamped [Examples.text_widget]
       None (Examples.persisted "widget_t1") None) Examples.cached
  = updated /\
  last_modified_indicator
    (calls_of
       (Examples.platform Examples.fresh_text_unstamped
          [Examples.text_widget] None (Examples.persisted "widget_t1") None)
       Examples.cached) = None /\
  store_after
    (Examples.platform Examples.fresh_text_unstamped [Examples.text_widget]
       None (Examples.persisted "widget_t1") None) Examples.cached
  = Examples.cached.
Proof. repeat split; vm_compute; reflexivity. Qed.

(** Every kind of side effect does occur once in some run. *)
Example run_text_over_image_counts :
  count deletes_widget (calls_of Examples.text_over_image Examples.cached)
  = 1%nat /\
  count creates_or_updates
    (calls_of Examples.text_over_image Examples.cached) = 1%nat /\
  count writes_token (calls_of Examples.text_over_image Examples.cached)
  = 1%nat /\
  count uploads_media
    (calls_of (Examples.first_run Examples.fresh_image) Examples.cached)
  = 1%nat.
Proof. repeat split; vm_compute; reflexivity. Qed.

(* ================================================================== *)
(** ** Properties *)

(** C1.  In every run, a write of the cache token takes effect if and only
    if the run ends as [updated] or [created] and the fetched response
    carried a last-modified indicator; the write is then under the
    last-modified key, with that indicator as its value, and the store
    after the run is the store before it with exactly that binding set.  In
    every other run (any skip, a failed update or create, a rejected call,
    a response without indicator) the store after the run is the store
    before it. *)
Theorem token_written_iff_reconciled_with_indicator (env : Env)
    (store : gmap string string) :
  (forall key value,
     In (CRedisSet key value (Resolved tt)) (calls_of env store) <->
     key = RedisKeys.SummaryLastModified /\
     reconciled (outcome_of env store) = true /\
     last_modified_indicator (calls_of env store) = Some value) /\
  (forall value,
     reconciled (outcome_of env store) = true ->
     last_modified_indicator (calls_of env store) = Some value ->
     store_after env store
     = <[RedisKeys.SummaryLastModified := value]> store) /\
  (reconciled (outcome_of env store) = false \/
   last_modified_indicator (calls_of env store) = None ->
   store_after env store = store).
Proof.
  run_cases; cbn [last_modified_indicator response_of reconciled];
  repeat match goal with
    | H : nonempty (headers_get _ _) = _ |- _ => rewrite H; clear H
    end;
  (split; [| split];
   [ intros k v; split;
     [ intros Hin; in_calls Hin; auto
     | intros (Hk & Hr & Hv); subst; try discriminate;
       injection Hv as <-; cbn [In]; auto 12 ]
   | intros v Hr Hv; try discriminate; injection Hv as <-; reflexivity
   | intros [H | H]; try discriminate; reflexivity ]).
Qed.

Lemma token_written_iff_reconciled_with_indicator_witness :
  reconciled (outcome_of Examples.text_over_text Examples.cached) = true /\
  last_modified_indicator (calls_of Examples.text_over_text Examples.cached)
  = Some Examples.stamp2 /\
  store_after Examples.text_over_text Examples.cached
  = <[RedisKeys.SummaryLastModified := Examples.stamp2]> Examples.cached /\
  In (CRedisSet RedisKeys.SummaryLastModified Examples.stamp2 (Resolved tt))
    (calls_of Examples.text_over_text Examples.cached).
Proof.
  assert (Hr : reconciled (outcome_of Examples.text_over_text Examples.cached)
               = true) by (vm_compute; reflexivity).
  assert (Hi : last_modified_indicator
                 (calls_of Examples.text_over_text Examples.cached)
               = Some Examples.stamp2) by (vm_compute; reflexivity).
  destruct (token_written_iff_reconciled_with_indicator
              Examples.text_over_text Examples.cached) as (Hiff & Hset & _).
  split; [exact Hr |]. split; [exact Hi |]. split.
  - exact (Hset _ Hr Hi).
  - apply Hiff. split; [reflexivity |]. split; assumption.
Defined.

(** C2.  In every run whose conditional fetch is answered with status 304,
    the outcome is [unchanged], the fetch is the last call of the run, the
    run makes no widget list, delete, create or update call, no media
    upload and no write of the cache token, and the redis store is the same
    after the run as before. *)
Theorem not_modified_run_is_unchanged (env : Env)
    (store : gmap string string) (fetchUrl : string)
    (ifModifiedSince : option string) (resp : Response) :
  In (CFetch fetchUrl ifModifiedSince (Resolved resp)) (calls_of env store) ->
  status resp = 304 ->
  outcome_of env store = unchanged /\
  last (calls_of env store)
    = Some (CFetch fetchUrl ifModifiedSince (Resolved resp)) /\
  existsb side_effect (calls_of env store) = false /\
  store_after env store = store.
Proof.
  intros Hin H304.
  run_cases; in_calls Hin; status_tests; try lia.
  repeat split; reflexivity.
Qed.

Lemma not_modified_run_is_unchanged_witness :
  In (CFetch Examples.fetchUrl (Some Examples.stamp1)
        (Resolved Examples.not_modified))
     (calls_of (Examples.platform Examples.not_modified [] None None None)
        Examples.cached) /\
  status Examples.not_modified = 304 /\
  outcome_of (Examples.platform Examples.not_modified [] None None None)
    Examples.cached = unchanged /\
  store_after (Examples.platform Examples.not_modified [] None None None)
    Examples.cached = Examples.cached.
Proof.
  assert (Hin : In (CFetch Examples.fetchUrl (Some Examples.stamp1)
                      (Resolved Examples.not_modified))
                   (calls_of
                      (Examples.platform Examples.not_modified [] None None
                         None) Examples.cached)) by find_call.
  destruct (not_modified_run_is_unchanged _ _ _ _ _ Hin eq_refl)
    as (Ho & _ & _ & Hs).
  split; [exact Hin |]. split; [reflexivity |]. split; assumption.
Defined.

(** C3 (as stated, refuted).  Image content over an existing text widget,
    the upload yielding no asset: exactly one widget carries the target
    name, its variant differs from that of the content, the widget is
    deleted, and the run ends as [skipped upload_failed] without any create
    call. *)
Lemma variant_change_without_create :
  In (CSettingsGet SettingKeys.SummaryWidgetName
        (Resolved (Some "Tropical Summary")))
     (calls_of Examples.image_over_text_upload_fails Examples.cached) /\
  In (CGetWidgets "hurricane" (Resolved [Examples.text_widget]))
     (calls_of Examples.image_over_text_upload_fails Examples.cached) /\
  List.filter
    (same_name Examples.image_over_text_upload_fails "Tropical Summary")
    [Examples.text_widget]
  = [Examples.text_widget] /\
  widget_class Examples.text_widget = TextAreaWidget /\
  classify_content_type (headers_get Examples.fresh_image "Content-Type")
  = Some true /\
  existsb deletes_widget
    (calls_of Examples.image_over_text_upload_fails Examples.cached) = true /\
  existsb creates_widget
    (calls_of Examples.image_over_text_upload_fails Examples.cached) = false /\
  outcome_of Examples.image_over_text_upload_fails Examples.cached
  = skipped upload_failed.
Proof.
  split; [find_call |]. split; [find_call |].
  repeat split; vm_compute; reflexivity.
Qed.

(** C3 (amended).  In every run in which exactly one listed widget matches
    the target name case-insensitively and is a text or image widget whose
    variant differs from that of the freshly classified content: the delete
    of that widget is issued before any other change (no delete, create,
    update, upload or token write precedes it, and none but it is a
    delete), and it settles as the platform answers it; the update
    operation is never invoked; every create call of the run comes after
    the delete and carries no [id]; and the create is invoked unless the
    run ends before it in one of two ways: for image content the upload,
    issued after the delete, resolves to no asset and the outcome is
    [skipped upload_failed]; or the delete, the upload or the reading of
    the body is rejected and the run ends on that rejection. *)
Theorem variant_change_deletes_then_creates (env : Env)
    (store : gmap string string) (target sub : string) (ws : list Widget)
    (w : Widget) (fetchUrl : string) (ifModifiedSince : option string)
    (resp : Response) (contentIsImage : bool) :
  In (CSettingsGet SettingKeys.SummaryWidgetName (Resolved (Some target)))
     (calls_of env store) ->
  In (CFetch fetchUrl ifModifiedSince (Resolved resp)) (calls_of env store) ->
  classify_content_type (headers_get resp "Content-Type")
  = Some contentIsImage ->
  In (CGetWidgets sub (Resolved ws)) (calls_of env store) ->
  List.filter (same_name env target) ws = [w] ->
  widget_class w = TextAreaWidget /\ contentIsImage = true \/
  widget_class w = ImageWidget /\ contentIsImage = false ->
  exists before r after,
    calls_of env store = before ++ CDeleteWidget sub (widget_id w) r :: after /\
    existsb mutation before = false /\
    existsb deletes_widget after = false /\
    existsb updates_widget (calls_of env store) = false /\
    (forall wd r', In (CAddWidget wd r') (calls_of env store) ->
       wd_id wd = None /\ In (CAddWidget wd r') after) /\
    r = reddit_deleteWidget env sub (widget_id w) /\
    ((exists wd r', In (CAddWidget wd r') after) \/
     (contentIsImage = true /\
      media_upload env fetchUrl "image" = Resolved None /\
      In (CMediaUpload fetchUrl "image" (Resolved None)) after /\
      outcome_of env store = skipped upload_failed) \/
     (exists reason,
        outcome_of env store = threw (Rejection reason) /\
        (r = Rejected reason \/
         In (CMediaUpload fetchUrl "image" (Rejected reason)) after \/
         In (CResponseText (Rejected reason)) after))).
Proof.
  intros Hname Hfetch Hclass Hlist Hone Hvar.
  run_cases; in_calls Hlist; in_calls Hname; in_calls Hfetch; target_known;
    only_match Hone;
    destruct Hvar as [[Hc Hi] | [Hc Hi]]; simplify_eq; try congruence;
    split_at_delete; do 4 (split; [reflexivity |]);
    (split;
     [ intros wd r' Hin; in_calls Hin; cbn [In wd_id]; auto 10
     | split;
       [ congruence
       | cbn [In];
         first [ left; eauto 10; fail
               | right; left;
                 (split; [reflexivity |]); (split; [assumption |]);
                 (split; [auto 10 | reflexivity])
               | right; right; eexists; (split; [reflexivity | auto 10]) ] ] ]).
Qed.

Lemma variant_change_deletes_then_creates_witness :
  In (CSettingsGet SettingKeys.SummaryWidgetName
        (Resolved (Some "Tropical Summary")))
     (calls_of Examples.text_over_image Examples.cached) /\
  In (CGetWidgets "hurricane" (Resolved [Examples.image_widget]))
     (calls_of Examples.text_over_image Examples.cached) /\
  List.filter (same_name Examples.text_over_image "Tropical Summary")
    [Examples.image_widget]
  = [Examples.image_widget] /\
  existsb updates_widget (calls_of Examples.text_over_image Examples.cached)
  = false /\
  exists before r after,
    calls_of Examples.text_over_image Examples.cached
    = before ++ CDeleteWidget "hurricane" "widget_i1" r :: after /\
    existsb mutation before = false /\
    exists wd r', In (CAddWidget wd r') after /\ wd_id wd = None.
Proof.
  assert (Hname : In (CSettingsGet SettingKeys.SummaryWidgetName
                        (Resolved (Some "Tropical Summary")))
                     (calls_of Examples.text_over_image Examples.cached))
    by find_call.
  assert (Hfetch : In (CFetch Examples.fetchUrl (Some Examples.stamp1)
                         (Resolved Examples.fresh_text))
                      (calls_of Examples.text_over_image Examples.cached))
    by find_call.
  assert (Hlist : In (CGetWidgets "hurricane"
                        (Resolved [Examples.image_widget]))
                     (calls_of Examples.text_over_image Examples.cached))
    by find_call.
  assert (Hclass : classify_content_type
                     (headers_get Examples.fresh_text "Content-Type")
                   = Some false) by (vm_compute; reflexivity).
  assert (Hone : List.filter
                   (same_name Examples.text_over_image "Tropical Summary")
                   [Examples.image_widget] = [Examples.image_widget])
    by (vm_compute; reflexivity).
  destruct (variant_change_deletes_then_creates
              Examples.text_over_image Examples.cached "Tropical Summary"
              "hurricane" [Examples.image_widget] Examples.image_widget
              Examples.fetchUrl (Some Examples.stamp1) Examples.fresh_text
              false Hname Hfetch Hclass Hlist Hone
              (or_intror (conj eq_refl eq_refl)))
    as (before & r & after & Ecalls & Hbefore & _ & Hupd & Hadd & _ & Hend).
  split; [exact Hname |]. split; [exact Hlist |]. split; [exact Hone |].
  split; [exact Hupd |].
  exists before, r, after. split; [exact Ecalls |]. split; [exact Hbefore |].
  destruct Hend as [(wd & r' & Hin) | [(Himg & _) | (reason & Hout & _)]].
  - exists wd, r'. split; [exact Hin |].
    apply (Hadd wd r'). rewrite Ecalls. apply in_or_app. right. right.
    exact Hin.
  - discriminate Himg.
  - vm_compute in Hout. discriminate Hout.
Defined.

(** C4 (as stated, refuted).  Text content over the one text widget of the
    target name: when the update reports failure the outcome is
    [skipped update_failed], not [updated]; and when the listed widget has
    an empty [id] the test of line 367 sends the run to the create path, so
    that a create call is made and no update. *)
Lemma same_variant_run_not_updated :
  (In (CGetWidgets "hurricane"
         (Resolved [Examples.other_widget; Examples.text_widget]))
      (calls_of Examples.text_over_text_update_fails Examples.cached) /\
   List.filter
     (same_name Examples.text_over_text_update_fails "Tropical Summary")
     [Examples.other_widget; Examples.text_widget] = [Examples.text_widget] /\
   widget_class Examples.text_widget = TextAreaWidget /\
   classify_content_type (headers_get Examples.fresh_text "Content-Type")
   = Some false /\
   outcome_of Examples.text_over_text_update_fails Examples.cached
   = skipped update_failed) /\
  (In (CGetWidgets "hurricane" (Resolved [Examples.unsaved_widget]))
      (calls_of Examples.text_over_unsaved Examples.cached) /\
   List.filter (same_name Examples.text_over_unsaved "Tropical Summary")
     [Examples.unsaved_widget]
   = [Examples.unsaved_widget] /\
   widget_class Examples.unsaved_widget = TextAreaWidget /\
   existsb creates_widget (calls_of Examples.text_over_unsaved Examples.cached)
   = true /\
   existsb updates_widget (calls_of Examples.text_over_unsaved Examples.cached)
   = false /\
   outcome_of Examples.text_over_unsaved Examples.cached = created).
Proof.
  split.
  - split; [find_call |]. repeat split; vm_compute; reflexivity.
  - split; [find_call |]. repeat split; vm_compute; reflexivity.
Qed.

(** C4 (amended).  In every run in which exactly one listed widget matches
    the target name case-insensitively, that widget is a text widget with a
    non-empty [id], and the fresh response is classified as text: no delete
    and no create call is made; every update call of the run is a text-area
    update carrying the [id] of the existing widget; and when no call of
    the run is rejected the update is invoked, the outcome being [updated]
    if it reports success and [skipped update_failed] if it does not. *)
Theorem same_variant_text_updates_in_place (env : Env)
    (store : gmap string string) (target sub : string) (ws : list Widget)
    (w : Widget) (fetchUrl : string) (ifModifiedSince : option string)
    (resp : Response) :
  In (CSettingsGet SettingKeys.SummaryWidgetName (Resolved (Some target)))
     (calls_of env store) ->
  In (CFetch fetchUrl ifModifiedSince (Resolved resp)) (calls_of env store) ->
  classify_content_type (headers_get resp "Content-Type") = Some false ->
  In (CGetWidgets sub (Resolved ws)) (calls_of env store) ->
  List.filter (same_name env target) ws = [w] ->
  widget_class w = TextAreaWidget ->
  truthy (widget_id w) = true ->
  existsb deletes_widget (calls_of env store) = false /\
  existsb creates_widget (calls_of env store) = false /\
  (forall c, In c (calls_of env store) -> updates_widget c = true ->
     exists wd r,
       c = CUpdateTextAreaWidget wd r /\ wd_id wd = Some (widget_id w)) /\
  (existsb rejected (calls_of env store) = false ->
   exists wd r,
     In (CUpdateTextAreaWidget wd (Resolved r)) (calls_of env store) /\
     wd_id wd = Some (widget_id w) /\
     (forall x, r = Some x -> outcome_of env store = updated) /\
     (r = None -> outcome_of env store = skipped update_failed)).
Proof.
  intros Hname Hfetch Hclass Hlist Hone Hw Hid.
  run_cases; in_calls Hlist; in_calls Hname; in_calls Hfetch; target_known;
    only_match Hone; try congruence;
    (split; [reflexivity |]); (split; [reflexivity |]);
    (split;
     [ intros c Hin Hupd; cbn [In] in Hin;
       repeat destruct Hin as [<- | Hin]; try contradiction;
       try discriminate Hupd; eexists; eexists; split; reflexivity
     | intros Hrej; cbn [existsb rejected orb] in Hrej;
       try discriminate Hrej;
       eexists; eexists; cbn [In];
       (split;
        [ eauto 12
        | split;
          [ reflexivity
          | split; [intros x Hx | intros Hx];
            try discriminate Hx; reflexivity ] ]) ]).
Qed.

Lemma same_variant_text_updates_in_place_witness :
  In (CGetWidgets "hurricane"
        (Resolved [Examples.other_widget; Examples.text_widget]))
     (calls_of Examples.text_over_text Examples.cached) /\
  List.filter (same_name Examples.text_over_text "Tropical Summary")
    [Examples.other_widget; Examples.text_widget] = [Examples.text_widget] /\
  existsb deletes_widget (calls_of Examples.text_over_text Examples.cached)
  = false /\
  existsb creates_widget (calls_of Examples.text_over_text Examples.cached)
  = false /\
  exists wd x,
    In (CUpdateTextAreaWidget wd (Resolved (Some x)))
       (calls_of Examples.text_over_text Examples.cached) /\
    wd_id wd = Some "widget_t1" /\
    outcome_of Examples.text_over_text Examples.cached = updated.
Proof.
  assert (Hname : In (CSettingsGet SettingKeys.SummaryWidgetName
                        (Resolved (Some "Tropical Summary")))
                     (calls_of Examples.text_over_text Examples.cached))
    by find_call.
  assert (Hfetch : In (CFetch Examples.fetchUrl (Some Examples.stamp1)
                         (Resolved Examples.fresh_text))
                      (calls_of Examples.text_over_text Examples.cached))
    by find_call.
  assert (Hlist : In (CGetWidgets "hurricane"
                        (Resolved [Examples.other_widget;
                                   Examples.text_widget]))
                     (calls_of Examples.text_over_text Examples.cached))
    by find_call.
  assert (Hclass : classify_content_type
                     (headers_get Examples.fresh_text "Content-Type")
                   = Some false) by (vm_compute; reflexivity).
  assert (Hone : List.filter
                   (same_name Examples.text_over_text "Tropical Summary")
                   [Examples.other_widget; Examples.text_widget]
                 = [Examples.text_widget]) by (vm_compute; reflexivity).
  assert (Hrej : existsb rejected
                   (calls_of Examples.text_over_text Examples.cached)
                 = false) by (vm_compute; reflexivity).
  destruct (same_variant_text_updates_in_place
              Examples.text_over_text Examples.cached "Tropical Summary"
              "hurricane" [Examples.other_widget; Examples.text_widget]
              Examples.text_widget Examples.fetchUrl (Some Examples.stamp1)
              Examples.fresh_text Hname Hfetch Hclass Hlist Hone eq_refl
              eq_refl)
    as (Hdel & Hadd & _ & Hupd).
  destruct (Hupd Hrej) as (wd & r & Hin & Hid & Hsome & Hnone).
  split; [exact Hlist |]. split; [exact Hone |]. split; [exact Hdel |].
  split; [exact Hadd |].
  destruct r as [x |].
  - exists wd, x. split; [exact Hin |]. split; [exact Hid |].
    exact (Hsome x eq_refl).
  - specialize (Hnone eq_refl). vm_compute in Hnone. discriminate Hnone.
Defined.

(** C5 (as stated, refuted).  A response with status 204, a success status
    of the 2xx family, ends the run as [skipped http_error]. *)
Lemma success_status_204_is_http_error :
  In (CFetch Examples.fetchUrl (Some Examples.stamp1)
        (Resolved Examples.no_content))
     (calls_of (Examples.first_run Examples.no_content) Examples.cached) /\
  (200 <= status Examples.no_content < 300)%Z /\
  outcome_of (Examples.first_run Examples.no_content) Examples.cached
  = skipped http_error.
Proof.
  split; [find_call |]. split; [vm_compute; split; congruence |].
  vm_compute. reflexivity.
Qed.

(** C5 (amended).  In every run whose fetch is answered: with status 200
    the outcome is not [skipped http_error]; with any status other than 200
    and 304 the outcome is [skipped http_error], the fetch is the last call
    of the run, no widget is listed, deleted, created or updated, nothing
    is uploaded, the cache token is not written, and the store is kept. *)
Theorem only_status_200_passes (env : Env) (store : gmap string string)
    (fetchUrl : string) (ifModifiedSince : option string) (resp : Response) :
  In (CFetch fetchUrl ifModifiedSince (Resolved resp)) (calls_of env store) ->
  (status resp = 200 -> outcome_of env store <> skipped http_error) /\
  (status resp <> 200 -> status resp <> 304 ->
   outcome_of env store = skipped http_error /\
   last (calls_of env store)
     = Some (CFetch fetchUrl ifModifiedSince (Resolved resp)) /\
   existsb side_effect (calls_of env store) = false /\
   store_after env store = store).
Proof.
  intros Hin.
  run_cases; in_calls Hin; status_tests;
    (split;
     [ intros H200; try lia; discriminate
     | intros H200 H304; try lia; repeat split; reflexivity ]).
Qed.

Lemma only_status_200_passes_witness :
  In (CFetch Examples.fetchUrl (Some Examples.stamp1)
        (Resolved Examples.server_error))
     (calls_of (Examples.first_run Examples.server_error) Examples.cached) /\
  outcome_of (Examples.first_run Examples.server_error) Examples.cached
  = skipped http_error /\
  store_after (Examples.first_run Examples.server_error) Examples.cached
  = Examples.cached.
Proof.
  assert (Hin : In (CFetch Examples.fetchUrl (Some Examples.stamp1)
                      (Resolved Examples.server_error))
                   (calls_of (Examples.first_run Examples.server_error)
                      Examples.cached)) by find_call.
  destruct (only_status_200_passes _ _ _ _ _ Hin) as [_ Herr].
  destruct Herr as (Ho & _ & _ & Hs);
    [vm_compute; discriminate | vm_compute; discriminate |].
  split; [exact Hin |]. split; assumption.
Defined.

(** C6 (as stated, refuted).  The declared type [IMAGE/PNG] starts neither
    with [text/plain] nor with [image/], yet the response is taken as an
    image: it is uploaded and a widget is created. *)
Lemma upper_case_image_type_is_accepted :
  In (CFetch Examples.fetchUrl (Some Examples.stamp1)
        (Resolved Examples.fresh_upper_image))
     (calls_of (Examples.first_run Examples.fresh_upper_image)
        Examples.cached) /\
  headers_get Examples.fresh_upper_image "Content-Type" = Some "IMAGE/PNG" /\
  startsWith "IMAGE/PNG" "text/plain" = false /\
  startsWith "IMAGE/PNG" "image/" = false /\
  outcome_of (Examples.first_run Examples.fresh_upper_image) Examples.cached
  = created /\
  existsb uploads_media
    (calls_of (Examples.first_run Examples.fresh_upper_image) Examples.cached)
  = true /\
  existsb creates_widget
    (calls_of (Examples.first_run Examples.fresh_upper_image) Examples.cached)
  = true.
Proof.
  split; [find_call |]. repeat split; vm_compute; reflexivity.
Qed.

(** C6 (amended).  In every run whose fetched response declares a content
    type that, once lower-cased, starts neither with [text/plain] nor with
    [image/]: the run ends with the fetch, no widget is listed, deleted,
    created or updated, nothing is uploaded, the cache token is not written
    and the store is kept; the outcome is [skipped invalid_content_type]
    when the status is 200 (a 304 ends the run as [unchanged] and any other
    status as [skipped http_error] before the type is looked at). *)
Theorem unaccepted_content_type_is_skipped (env : Env)
    (store : gmap string string) (fetchUrl : string)
    (ifModifiedSince : option string) (resp : Response) (declared : string) :
  In (CFetch fetchUrl ifModifiedSince (Resolved resp)) (calls_of env store) ->
  headers_get resp "Content-Type" = Some declared ->
  startsWith (toLowerCase declared) "text/plain" = false ->
  startsWith (toLowerCase declared) "image/" = false ->
  (status resp = 200 ->
   outcome_of env store = skipped invalid_content_type) /\
  outcome_of env store = ends_at_validation resp /\
  last (calls_of env store)
    = Some (CFetch fetchUrl ifModifiedSince (Resolved resp)) /\
  existsb side_effect (calls_of env store) = false /\
  store_after env store = store.
Proof.
  intros Hin Hdecl Htext Himage.
  assert (Hnone : classify_content_type (headers_get resp "Content-Type")
                  = None).
  { rewrite Hdecl. apply classify_unaccepted; assumption. }
  destruct (unclassified_run env store fetchUrl ifModifiedSince resp Hin Hnone)
    as (Ho & Hlast & Hside & Hstore).
  split; [| repeat split; assumption].
  intros H200. rewrite Ho. apply ends_at_validation_200. exact H200.
Qed.

Lemma unaccepted_content_type_is_skipped_witness :
  In (CFetch Examples.fetchUrl (Some Examples.stamp1)
        (Resolved Examples.fresh_json))
     (calls_of (Examples.first_run Examples.fresh_json) Examples.cached) /\
  headers_get Examples.fresh_json "Content-Type" = Some "application/json" /\
  outcome_of (Examples.first_run Examples.fresh_json) Examples.cached
  = skipped invalid_content_type /\
  existsb side_effect
    (calls_of (Examples.first_run Examples.fresh_json) Examples.cached)
  = false.
Proof.
  assert (Hin : In (CFetch Examples.fetchUrl (Some Examples.stamp1)
                      (Resolved Examples.fresh_json))
                   (calls_of (Examples.first_run Examples.fresh_json)
                      Examples.cached)) by find_call.
  assert (Hdecl : headers_get Examples.fresh_json "Content-Type"
                  = Some "application/json") by (vm_compute; reflexivity).
  destruct (unaccepted_content_type_is_skipped _ _ _ _ _ _ Hin Hdecl
              eq_refl eq_refl) as (H200 & _ & _ & Hside & _).
  split; [exact Hin |]. split; [exact Hdecl |].
  split; [exact (H200 eq_refl) | exact Hside].
Defined.

(** C7.  In every run whose listing holds more than one widget matching
    the target name case-insensitively, the outcome is
    [skipped ambiguous_existing], the listing is the last call of the run,
    no delete, create, update, upload or write of the cache token is made,
    and the store is kept, whatever the classification of the content. *)
Theorem ambiguous_existing_is_skipped (env : Env)
    (store : gmap string string) (target sub : string) (ws : list Widget) :
  In (CSettingsGet SettingKeys.SummaryWidgetName (Resolved (Some target)))
     (calls_of env store) ->
  In (CGetWidgets sub (Resolved ws)) (calls_of env store) ->
  (1 < length (List.filter (same_name env target) ws))%nat ->
  outcome_of env store = skipped ambiguous_existing /\
  last (calls_of env store) = Some (CGetWidgets sub (Resolved ws)) /\
  existsb mutation (calls_of env store) = false /\
  store_after env store = store.
Proof.
  intros Hname Hlist Hmany.
  run_cases; in_calls Hlist; in_calls Hname; target_known;
    try (repeat split; reflexivity);
    match goal with
    | H : Nat.ltb _ _ = false |- _ => apply Nat.ltb_ge in H; lia
    end.
Qed.

Lemma ambiguous_existing_is_skipped_witness :
  In (CGetWidgets "hurricane"
        (Resolved [Examples.text_widget; Examples.other_widget;
                   Examples.image_widget]))
     (calls_of Examples.two_same_named Examples.cached) /\
  length (List.filter (same_name Examples.two_same_named "Tropical Summary")
            [Examples.text_widget; Examples.other_widget;
             Examples.image_widget]) = 2%nat /\
  outcome_of Examples.two_same_named Examples.cached
  = skipped ambiguous_existing /\
  existsb mutation (calls_of Examples.two_same_named Examples.cached)
  = false /\
  store_after Examples.two_same_named Examples.cached = Examples.cached.
Proof.
  assert (Hname : In (CSettingsGet SettingKeys.SummaryWidgetName
                        (Resolved (Some "Tropical Summary")))
                     (calls_of Examples.two_same_named Examples.cached))
    by find_call.
  assert (Hlist : In (CGetWidgets "hurricane"
                        (Resolved [Examples.text_widget;
                                   Examples.other_widget;
                                   Examples.image_widget]))
                     (calls_of Examples.two_same_named Examples.cached))
    by find_call.
  assert (Hlen : length (List.filter
                           (same_name Examples.two_same_named
                              "Tropical Summary")
                           [Examples.text_widget; Examples.other_widget;
                            Examples.image_widget]) = 2%nat)
    by (vm_compute; reflexivity).
  destruct (ambiguous_existing_is_skipped
              Examples.two_same_named Examples.cached "Tropical Summary"
              "hurricane" _ Hname Hlist)
    as (Ho & _ & Hmut & Hs); [rewrite Hlen; lia |].
  split; [exact Hlist |]. split; [exact Hlen |]. split; [exact Ho |].
  split; assumption.
Defined.

(** C8.  In every run, whatever the inputs and whatever the collaborators
    answer, there is at most one widget delete, at most one media upload,
    at most one widget create-or-update, and at most one write of the cache
    token. *)
Theorem at_most_one_of_each_side_effect (env : Env)
    (store : gmap string string) :
  (count deletes_widget (calls_of env store) <= 1)%nat /\
  (count uploads_media (calls_of env store) <= 1)%nat /\
  (count creates_or_updates (calls_of env store) <= 1)%nat /\
  (count writes_token (calls_of env store) <= 1)%nat.
Proof.
  run_cases; cbn; repeat split; lia.
Qed.

(** C9.  In every run whose fetched response has no [Content-Type] header,
    the run ends as it does for a declared type outside the two accepted
    families: with the fetch as its last call, without any widget list,
    delete, create or update, upload or token write, the store kept, and
    with the outcome of any run whose response has the same status and an
    unaccepted declared type, which is [skipped invalid_content_type] at
    status 200.  The classification does not depend on letter case: a
    declared type is classified as its lower-cased form is, so that any
    spelling of [text/plain...] is text and any spelling of [image/...] is
    an image. *)
Theorem missing_content_type_and_letter_case (env : Env)
    (store : gmap string string) (fetchUrl : string)
    (ifModifiedSince : option string) (resp : Response) :
  In (CFetch fetchUrl ifModifiedSince (Resolved resp)) (calls_of env store) ->
  headers_get resp "Content-Type" = None ->
  ((status resp = 200 ->
    outcome_of env store = skipped invalid_content_type) /\
   last (calls_of env store)
     = Some (CFetch fetchUrl ifModifiedSince (Resolved resp)) /\
   existsb side_effect (calls_of env store) = false /\
   store_after env store = store /\
   (forall env' store' fetchUrl' ifModifiedSince' resp' declared,
      In (CFetch fetchUrl' ifModifiedSince' (Resolved resp'))
         (calls_of env' store') ->
      headers_get resp' "Content-Type" = Some declared ->
      startsWith (toLowerCase declared) "text/plain" = false ->
      startsWith (toLowerCase declared) "image/" = false ->
      status resp' = status resp ->
      outcome_of env store = outcome_of env' store')) /\
  (forall declared,
     classify_content_type (Some declared)
     = classify_content_type (Some (toLowerCase declared))) /\
  (forall declared declared',
     toLowerCase declared = toLowerCase declared' ->
     classify_content_type (Some declared)
     = classify_content_type (Some declared')) /\
  (forall declared,
     startsWith (toLowerCase declared) "text/plain" = true ->
     classify_content_type (Some declared) = Some false) /\
  (forall declared,
     startsWith (toLowerCase declared) "image/" = true ->
     classify_content_type (Some declared) = Some true).
Proof.
  intros Hin Hnone.
  assert (Hclass : classify_content_type (headers_get resp "Content-Type")
                   = None) by (rewrite Hnone; reflexivity).
  destruct (unclassified_run env store fetchUrl ifModifiedSince resp Hin
              Hclass) as (Ho & Hlast & Hside & Hstore).
  split; [| split; [| split; [| split]]].
  - split; [| split; [| split; [| split]]]; try assumption.
    + intros H200. rewrite Ho. apply ends_at_validation_200. exact H200.
    + intros env' store' u' h' resp' declared Hin' Hdecl Htext Himage Hst.
      assert (Hclass' : classify_content_type
                          (headers_get resp' "Content-Type") = None).
      { rewrite Hdecl. apply classify_unaccepted; assumption. }
      destruct (unclassified_run env' store' u' h' resp' Hin' Hclass')
        as (Ho' & _).
      rewrite Ho, Ho'. unfold ends_at_validation. rewrite Hst. reflexivity.
  - intros declared. symmetry. apply classify_lowercase.
  - intros declared declared' Heq.
    rewrite <- (classify_lowercase declared), <- (classify_lowercase declared').
    rewrite Heq. reflexivity.
  - exact classify_text.
  - exact classify_image.
Qed.

Lemma missing_content_type_and_letter_case_witness :
  In (CFetch Examples.fetchUrl (Some Examples.stamp1)
        (Resolved Examples.fresh_untyped))
     (calls_of (Examples.first_run Examples.fresh_untyped) Examples.cached) /\
  headers_get Examples.fresh_untyped "Content-Type" = None /\
  outcome_of (Examples.first_run Examples.fresh_untyped) Examples.cached
  = skipped invalid_content_type /\
  outcome_of (Examples.first_run Examples.fresh_untyped) Examples.cached
  = outcome_of (Examples.first_run Examples.fresh_json) Examples.cached /\
  classify_content_type (Some "Text/PLAIN; charset=UTF-8") = Some false /\
  classify_content_type (Some "Image/PNG") = Some true.
Proof.
  assert (Hin : In (CFetch Examples.fetchUrl (Some Examples.stamp1)
                      (Resolved Examples.fresh_untyped))
                   (calls_of (Examples.first_run Examples.fresh_untyped)
                      Examples.cached)) by find_call.
  assert (Hnone : headers_get Examples.fresh_untyped "Content-Type" = None)
    by (vm_compute; reflexivity).
  assert (Hin' : In (CFetch Examples.fetchUrl (Some Examples.stamp1)
                       (Resolved Examples.fresh_json))
                    (calls_of (Examples.first_run Examples.fresh_json)
                       Examples.cached)) by find_call.
  assert (Hdecl : headers_get Examples.fresh_json "Content-Type"
                  = Some "application/json") by (vm_compute; reflexivity).
  destruct (missing_content_type_and_letter_case _ _ _ _ _ Hin Hnone)
    as ((H200 & _ & _ & _ & Hsame) & _ & _ & Htext & Himage).
  split; [exact Hin |]. split; [exact Hnone |].
  split; [exact (H200 eq_refl) |].
  split; [exact (Hsame _ _ _ _ _ _ Hin' Hdecl eq_refl eq_refl eq_refl) |].
  split; [apply Htext; reflexivity | apply Himage; reflexivity].
Defined.

(** C10.  [updateWidget] throws on a widget type other than the two it
    knows, but the job never meets that throw: the widget data it builds
    has type [image] or [textarea], each update call it issues goes to the
    plugin call of its type, and no run ends in the catch with the
    unknown-widget-type error. *)
Theorem unknown_widget_type_is_unreachable (env : Env)
    (store : gmap string string) :
  (forall wd metadata s,
     wd_type wd <> "image" -> wd_type wd <> "textarea" ->
     updateWidget env (Some wd) metadata s = (inr (threw UnknownWidgetType), s)) /\
  (forall p apiResult contentIsImage existingWidget mediaAsset s wd s',
     build_widgetData p apiResult contentIsImage existingWidget mediaAsset s
     = (inl wd, s') ->
     wd_type wd = "image" \/ wd_type wd = "textarea") /\
  (forall wd r,
     In (CUpdateImageWidget wd r) (calls_of env store) ->
     wd_type wd = "image") /\
  (forall wd r,
     In (CUpdateTextAreaWidget wd r) (calls_of env store) ->
     wd_type wd = "textarea") /\
  outcome_of env store <> threw UnknownWidgetType.
Proof.
  split; [| split].
  - intros wd metadata s Himage Htext. unfold updateWidget.
    apply String.eqb_neq in Himage, Htext. rewrite Himage, Htext.
    reflexivity.
  - intros p apiResult contentIsImage existingWidget mediaAsset s wd s'.
    unfold build_widgetData, bind, ret, await.
    destruct contentIsImage; [| destruct (body_text apiResult)];
      intros [= <- _]; cbn [wd_type]; auto.
  - run_cases;
      (split; [| split];
       [ intros wd r Hin; in_calls Hin; reflexivity
       | intros wd r Hin; in_calls Hin; reflexivity
       | discriminate ]).
Qed.

Lemma unknown_widget_type_is_unreachable_witness :
  updateWidget Examples.text_over_text
    (Some {| wd_type := "button"; wd_id := Some "widget_b1";
             wd_subreddit := "hurricane"; wd_shortName := "links";
             wd_text := None; wd_data := None;
             wd_styles := {| backgroundColor := ""; headerColor := "" |} |})
    [] {| redis := Examples.cached; calls := [] |}
  = (inr (threw UnknownWidgetType),
     {| redis := Examples.cached; calls := [] |}) /\
  outcome_of Examples.text_over_text Examples.cached
  <> threw UnknownWidgetType.
Proof.
  destruct (unknown_widget_type_is_unreachable Examples.text_over_text
              Examples.cached) as (Hthrow & _ & _ & _ & Hnever).
  split; [| exact Hnever].
  apply Hthrow; cbn [wd_type]; discriminate.
Defined.

(* ================================================================== *)
(** ** Further properties of the job *)

(** [run_cases] for a run named in a hypothesis only. *)
Ltac run_cases_of env store :=
  unfold outcome_of, calls_of, store_after in *;
  let Hrun := fresh "Hrun" in
  let o := fresh "o" in
  let s := fresh "s" in
  destruct (onRun env store) as [o s] eqn:Hrun;
  cbn [fst snd] in *;
  job_cbv_in Hrun;
  repeat (run_step_in Hrun; job_cbv_in Hrun);
  injection Hrun as <- <-;
  cbn [calls redis] in *.

(** What a path shows of an observation of the run. *)
Ltac observed H :=
  cbn [listed target_name response_of String.eqb Ascii.eqb Bool.eqb
       SettingKeys.SummaryWidgetName SettingKeys.SummaryWidgetDomain] in H;
  repeat (match type of H with
          | context [match ?x with _ => _ end] => destruct x
          end;
          cbn [listed target_name response_of String.eqb Ascii.eqb Bool.eqb
               SettingKeys.SummaryWidgetName
               SettingKeys.SummaryWidgetDomain] in H);
  try discriminate H; injection H as ?; subst.

Lemma nonempty_toLowerCase (env : Env) (s : string) :
  nonempty (Some (String_toLowerCase env s))
  = if truthy s then Some (String_toLowerCase env s) else None.
Proof. cbn [nonempty]. rewrite toLowerCase_truthy. reflexivity. Qed.

(** The header of a fetch is the stored token, when it is not empty. *)
Lemma fetch_header_is_stored_token (env : Env) (store : gmap string string)
    (fetchUrl : string) (ifModifiedSince : option string)
    (r : reply Response) :
  In (CFetch fetchUrl ifModifiedSince r) (calls_of env store) ->
  ifModifiedSince = nonempty (store !! RedisKeys.SummaryLastModified).
Proof.
  intros Hin. run_cases_of env store; in_calls Hin; reflexivity.
Qed.

(** After a reconciled run the store holds the indicator of the response,
    which is not empty. *)
Lemma reconciled_run_stores_indicator (env : Env)
    (store : gmap string string) (value : string) :
  reconciled (outcome_of env store) = true ->
  last_modified_indicator (calls_of env store) = Some value ->
  store_after env store !! RedisKeys.SummaryLastModified = Some value /\
  truthy value = true.
Proof.
  intros Hr Hi.
  run_cases; cbn [last_modified_indicator response_of reconciled] in *;
    try discriminate Hr; try congruence; simplify_eq;
    match goal with
    | H : nonempty (headers_get _ _) = Some _ |- _ =>
        apply nonempty_Some in H as [_ H]
    end;
    (split; [apply lookup_insert_eq | assumption]).
Qed.

(** X1.  The calls of every run come in the order of the text of the job:
    the name setting, the domain setting, the stored token, the fetch, the
    listing, the delete, the upload, the reading of the body, the update or
    the add, the token write; none is repeated and none comes out of
    order. *)
Theorem calls_follow_the_order_of_the_job (env : Env)
    (store : gmap string string) :
  ascending None (map stage (calls_of env store)) = true.
Proof.
  run_cases; reflexivity.
Qed.

(** X2.  A run ends in the catch exactly when its last call is rejected,
    with the reason of that rejection; no call but the last is ever
    rejected, so nothing is attempted after a failure. *)
Theorem a_rejected_call_ends_the_run (env : Env)
    (store : gmap string string) :
  existsb rejected (removelast (calls_of env store)) = false /\
  (forall reason,
     outcome_of env store = threw (Rejection reason) <->
     exists c, last (calls_of env store) = Some c /\
               rejection_of c = Some reason).
Proof.
  run_cases;
    (split;
     [ reflexivity
     | intros why; split;
       [ intros Ho; try discriminate Ho; injection Ho as <-;
         eexists; split; reflexivity
       | intros (c & Hlast & Hrej); cbn in Hlast;
         try discriminate Hlast; injection Hlast as <-;
         cbn in Hrej; try discriminate Hrej; injection Hrej as <-;
         reflexivity ] ]).
Qed.

Lemma a_rejected_call_ends_the_run_witness :
  outcome_of upload_rejects Examples.cached
  = threw (Rejection "media service unavailable") /\
  last (calls_of upload_rejects Examples.cached)
  = Some (CMediaUpload Examples.fetchUrl "image"
            (Rejected "media service unavailable")).
Proof.
  assert (Hlast : last (calls_of upload_rejects Examples.cached)
                  = Some (CMediaUpload Examples.fetchUrl "image"
                            (Rejected "media service unavailable")))
    by (vm_compute; reflexivity).
  split; [| exact Hlast].
  apply (proj2 (a_rejected_call_ends_the_run upload_rejects
                  Examples.cached)).
  eexists. split; [exact Hlast | reflexivity].
Defined.

(** X3.  Whenever a run fetches, the URL is [https://<domain>/api/v1] for
    the non-empty domain read from the settings, and the request carries
    the stored token as [If-Modified-Since] exactly when the store holds a
    non-empty one (no header otherwise). *)
Theorem fetch_request_is_built_from_domain_and_token (env : Env)
    (store : gmap string string) (fetchUrl : string)
    (ifModifiedSince : option string) (r : reply Response) :
  In (CFetch fetchUrl ifModifiedSince r) (calls_of env store) ->
  ifModifiedSince = nonempty (store !! RedisKeys.SummaryLastModified) /\
  exists domain,
    In (CSettingsGet SettingKeys.SummaryWidgetDomain (Resolved (Some domain)))
       (calls_of env store) /\
    truthy domain = true /\
    fetchUrl = "https://" +:+ domain +:+ "/api/v1".
Proof.
  intros Hin.
  run_cases; in_calls Hin;
    (split; [reflexivity |]);
    match goal with
    | H : nonempty ?a = Some ?d |- context [CSettingsGet
                                     SettingKeys.SummaryWidgetDomain
                                     (Resolved ?a)] =>
        apply nonempty_Some in H as [-> H]; exists d
    end;
    (split; [cbn [In]; auto 6 | split; [assumption | reflexivity]]).
Qed.

Lemma fetch_request_is_built_from_domain_and_token_witness :
  In (CFetch "https://rhurricane.net/api/v1" (Some Examples.stamp1)
        (Resolved Examples.fresh_text))
     (calls_of Examples.text_over_text Examples.cached) /\
  Some Examples.stamp1
  = nonempty (Examples.cached !! RedisKeys.SummaryLastModified).
Proof.
  assert (Hin : In (CFetch "https://rhurricane.net/api/v1"
                      (Some Examples.stamp1) (Resolved Examples.fresh_text))
                   (calls_of Examples.text_over_text Examples.cached))
    by find_call.
  split; [exact Hin |].
  exact (proj1 (fetch_request_is_built_from_domain_and_token _ _ _ _ _ Hin)).
Defined.

(** X4.  The token written by a reconciled run is the token the next run
    sends: if a run ends as [updated] or [created] on a response with a
    last-modified indicator, every fetch of a run started on the store it
    leaves carries that indicator as [If-Modified-Since], whatever the
    platform then answers. *)
Theorem written_token_is_sent_by_the_next_run (env next : Env)
    (store : gmap string string) (value fetchUrl : string)
    (ifModifiedSince : option string) (r : reply Response) :
  reconciled (outcome_of env store) = true ->
  last_modified_indicator (calls_of env store) = Some value ->
  In (CFetch fetchUrl ifModifiedSince r)
     (calls_of next (store_after env store)) ->
  ifModifiedSince = Some value.
Proof.
  intros Hr Hi Hin.
  destruct (reconciled_run_stores_indicator env store value Hr Hi)
    as [Hstored Htruthy].
  rewrite (fetch_header_is_stored_token _ _ _ _ _ Hin), Hstored.
  apply nonempty_truthy. exact Htruthy.
Qed.

Lemma written_token_is_sent_by_the_next_run_witness :
  In (CFetch Examples.fetchUrl (Some Examples.stamp2)
        (Resolved Examples.not_modified))
     (calls_of (Examples.platform Examples.not_modified [] None None None)
        (store_after Examples.text_over_text Examples.cached)) /\
  outcome_of (Examples.platform Examples.not_modified [] None None None)
    (store_after Examples.text_over_text Examples.cached) = unchanged.
Proof.
  assert (Hin : In (CFetch Examples.fetchUrl (Some Examples.stamp2)
                      (Resolved Examples.not_modified))
                   (calls_of
                      (Examples.platform Examples.not_modified [] None None
                         None)
                      (store_after Examples.text_over_text Examples.cached)))
    by find_call.
  assert (Hr : reconciled (outcome_of Examples.text_over_text Examples.cached)
               = true) by (vm_compute; reflexivity).
  assert (Hi : last_modified_indicator
                 (calls_of Examples.text_over_text Examples.cached)
               = Some Examples.stamp2) by (vm_compute; reflexivity).
  pose proof (written_token_is_sent_by_the_next_run _ _ _ _ _ _ _ Hr Hi Hin)
    as Hsent.
  split; [exact Hin | vm_compute; reflexivity].
Defined.

(** X5.  In every run whose listing holds exactly one widget of the target
    name, of a class other than the text-area and image widgets, the
    outcome is [skipped unknown_existing_type]: the listing is the last
    call, nothing is deleted, created, updated or uploaded, the token is
    not written and the store is kept. *)
Theorem unknown_existing_widget_is_left_alone (env : Env)
    (store : gmap string string) (target kind : string)
    (ws : list Widget) (w : Widget) :
  target_name (calls_of env store) = Some target ->
  listed (calls_of env store) = Some ws ->
  List.filter (same_name env target) ws = [w] ->
  widget_class w = OtherWidget kind ->
  outcome_of env store = skipped unknown_existing_type /\
  (exists sub,
     last (calls_of env store) = Some (CGetWidgets sub (Resolved ws))) /\
  existsb mutation (calls_of env store) = false /\
  store_after env store = store.
Proof.
  intros Hname Hlist Hone Hclass.
  run_cases; observed Hlist; observed Hname; target_known; only_match Hone;
    try congruence;
    (split;
     [ reflexivity
     | split; [eexists; reflexivity | split; reflexivity] ]).
Qed.

Lemma unknown_existing_widget_is_left_alone_witness :
  listed (calls_of calendar_named_like_target Examples.cached)
  = Some [Examples.other_widget; calendar] /\
  List.filter (same_name calendar_named_like_target "Tropical Summary")
    [Examples.other_widget; calendar]
  = [calendar] /\
  outcome_of calendar_named_like_target Examples.cached
  = skipped unknown_existing_type /\
  store_after calendar_named_like_target Examples.cached = Examples.cached.
Proof.
  assert (Hname : target_name
                    (calls_of calendar_named_like_target Examples.cached)
                  = Some "Tropical Summary") by (vm_compute; reflexivity).
  assert (Hlist : listed (calls_of calendar_named_like_target Examples.cached)
                  = Some [Examples.other_widget; calendar])
    by (vm_compute; reflexivity).
  assert (Hone : List.filter
                   (same_name calendar_named_like_target "Tropical Summary")
                   [Examples.other_widget; calendar] = [calendar])
    by (vm_compute; reflexivity).
  destruct (unknown_existing_widget_is_left_alone
              calendar_named_like_target Examples.cached "Tropical Summary"
              "calendar" _ calendar Hname Hlist Hone eq_refl)
    as (Ho & _ & _ & Hs).
  split; [exact Hlist |]. split; [exact Hone |]. split; assumption.
Defined.

(** X6.  In every run whose listing holds no widget of the target name,
    nothing is deleted or updated and every add call carries no [id]; when
    no call of the run is rejected and no upload of the run resolves to no
    asset, the add is invoked, and the outcome is [created] if it reports
    a widget and [skipped create_failed] if it does not. *)
Theorem absent_widget_is_created (env : Env) (store : gmap string string)
    (target : string) (ws : list Widget) :
  target_name (calls_of env store) = Some target ->
  listed (calls_of env store) = Some ws ->
  List.filter (same_name env target) ws = [] ->
  existsb deletes_widget (calls_of env store) = false /\
  existsb updates_widget (calls_of env store) = false /\
  (forall wd r, In (CAddWidget wd r) (calls_of env store) ->
     wd_id wd = None) /\
  (existsb rejected (calls_of env store) = false ->
   existsb yields_no_asset (calls_of env store) = false ->
   exists wd r,
     In (CAddWidget wd (Resolved r)) (calls_of env store) /\
     (forall x, r = Some x -> outcome_of env store = created) /\
     (r = None -> outcome_of env store = skipped create_failed)).
Proof.
  intros Hname Hlist Hnone.
  run_cases; observed Hlist; observed Hname; target_known;
    rewrite Hnone in *; cbn [head length Nat.ltb Nat.leb] in *;
    try discriminate;
    (split; [reflexivity |]); (split; [reflexivity |]);
    (split;
     [ intros wd r Hin; in_calls Hin; reflexivity
     | intros Hrej Hup;
       cbn [existsb rejected yields_no_asset orb] in Hrej, Hup;
       try discriminate Hrej; try discriminate Hup;
       eexists; eexists; cbn [In];
       (split;
        [ do 5 right; eauto 6
        | split; [intros x Hx | intros Hx];
          try discriminate Hx; reflexivity ]) ]).
Qed.

Lemma absent_widget_is_created_witness :
  listed (calls_of (Examples.first_run Examples.fresh_image) Examples.cached)
  = Some [Examples.other_widget] /\
  List.filter
    (same_name (Examples.first_run Examples.fresh_image) "Tropical Summary")
    [Examples.other_widget] = [] /\
  existsb deletes_widget
    (calls_of (Examples.first_run Examples.fresh_image) Examples.cached)
  = false /\
  outcome_of (Examples.first_run Examples.fresh_image) Examples.cached
  = created.
Proof.
  assert (Hname : target_name
                    (calls_of (Examples.first_run Examples.fresh_image)
                       Examples.cached) = Some "Tropical Summary")
    by (vm_compute; reflexivity).
  assert (Hlist : listed (calls_of (Examples.first_run Examples.fresh_image)
                            Examples.cached) = Some [Examples.other_widget])
    by (vm_compute; reflexivity).
  assert (Hnone : List.filter
                    (same_name (Examples.first_run Examples.fresh_image)
                       "Tropical Summary")
                    [Examples.other_widget] = [])
    by (vm_compute; reflexivity).
  destruct (absent_widget_is_created
              (Examples.first_run Examples.fresh_image) Examples.cached
              "Tropical Summary" _ Hname Hlist Hnone)
    as (Hdel & _ & _ & Hadd).
  split; [exact Hlist |]. split; [exact Hnone |]. split; [exact Hdel |].
  destruct Hadd as (wd & r & _ & Hsome & Hfail);
    [vm_compute; reflexivity | vm_compute; reflexivity |].
  destruct r as [x |]; [exact (Hsome x eq_refl) |].
  specialize (Hfail eq_refl). vm_compute in Hfail. discriminate Hfail.
Defined.

(** X7.  What a run stores is what it fetched.  The widget data of every
    update or add call has the subreddit of the context, the name setting
    as the runtime lower-cases it as short name and empty style colours;
    it is either a [textarea] with no image data whose text is the body
    the response resolved to, or an [image] with no text whose data is the
    URL of the asset the upload resolved to, with an empty link and zero
    width and height. *)
Theorem stored_widget_carries_the_fetched_content (env : Env)
    (store : gmap string string) (c : Call) (wd : UpdateWidgetData) :
  In c (calls_of env store) ->
  stored_data c = Some wd ->
  nonempty (subredditName env) = Some (wd_subreddit wd) /\
  (exists target,
     In (CSettingsGet SettingKeys.SummaryWidgetName (Resolved (Some target)))
        (calls_of env store) /\
     wd_shortName wd = String_toLowerCase env target) /\
  wd_styles wd = {| backgroundColor := ""; headerColor := "" |} /\
  ((wd_type wd = "textarea" /\ wd_data wd = None /\
    exists body,
      In (CResponseText (Resolved body)) (calls_of env store) /\
      wd_text wd = Some body) \/
   (wd_type wd = "image" /\ wd_text wd = None /\
    exists fetchUrl asset,
      In (CMediaUpload fetchUrl "image" (Resolved (Some asset)))
         (calls_of env store) /\
      wd_data wd = Some {| url := mediaUrl asset; linkUrl := "";
                           width := 0; height := 0 |})).
Proof.
  intros Hin Hdata.
  run_cases; cbn [In] in Hin;
    repeat destruct Hin as [<- | Hin]; try contradiction;
    try discriminate Hdata; injection Hdata as <-;
    match goal with
    | H : settings_get _ SettingKeys.SummaryWidgetName = Resolved ?a |- _ =>
        destruct a as [target |]; [| discriminate]
    end;
    target_known;
    cbn [In wd_type wd_data wd_text wd_subreddit wd_shortName wd_styles];
    (split; [reflexivity |]);
    (split; [exists target; split; [cbn [In]; auto | reflexivity] |]);
    (split; [reflexivity |]);
    first [ left; split; [reflexivity |]; split; [reflexivity |];
            eexists; split; [eauto 12 | reflexivity]
          | right; split; [reflexivity |]; split; [reflexivity |];
            eexists; eexists; split; [eauto 12 | reflexivity] ].
Qed.

Lemma stored_widget_carries_the_fetched_content_witness :
  exists wd,
    In (CUpdateTextAreaWidget wd (Resolved (Examples.persisted "widget_t1")))
       (calls_of Examples.text_over_text Examples.cached) /\
    wd_text wd = Some "Tropical weather outlook" /\
    wd_shortName wd = "tropical summary".
Proof.
  exists {| wd_type := "textarea"; wd_id := Some "widget_t1";
            wd_subreddit := "hurricane"; wd_shortName := "tropical summary";
            wd_text := Some "Tropical weather outlook"; wd_data := None;
            wd_styles := {| backgroundColor := ""; headerColor := "" |} |}.
  assert (Hin : In (CUpdateTextAreaWidget
                      {| wd_type := "textarea"; wd_id := Some "widget_t1";
                         wd_subreddit := "hurricane";
                         wd_shortName := "tropical summary";
                         wd_text := Some "Tropical weather outlook";
                         wd_data := None;
                         wd_styles := {| backgroundColor := "";
                                         headerColor := "" |} |}
                      (Resolved (Examples.persisted "widget_t1")))
                   (calls_of Examples.text_over_text Examples.cached))
    by find_call.
  destruct (stored_widget_carries_the_fetched_content _ _ _ _ Hin eq_refl)
    as (_ & _ & _ & Hcontent).
  split; [exact Hin |]. split; reflexivity.
Defined.



(** X9.  Every later call of a run is justified by the response: the
    widgets are listed, for the subreddit of the context, only after a
    response with status 200 and an accepted content type; the upload is
    made only for a response classified as an image, from the URL that was
    fetched and with type [image]; and the body is read only for a
    response classified as text, and it is the body of that response. *)
Theorem later_calls_are_justified_by_the_response (env : Env)
    (store : gmap string string) :
  (forall sub r,
     In (CGetWidgets sub r) (calls_of env store) ->
     nonempty (subredditName env) = Some sub /\
     exists resp contentIsImage,
       response_of (calls_of env store) = Some resp /\
       status resp = 200 /\
       classify_content_type (headers_get resp "Content-Type")
       = Some contentIsImage) /\
  (forall url type r,
     In (CMediaUpload url type r) (calls_of env store) ->
     type = "image" /\
     exists ifModifiedSince resp,
       In (CFetch url ifModifiedSince (Resolved resp)) (calls_of env store) /\
       classify_content_type (headers_get resp "Content-Type") = Some true) /\
  (forall r,
     In (CResponseText r) (calls_of env store) ->
     exists resp,
       response_of (calls_of env store) = Some resp /\
       r = body_text resp /\
       classify_content_type (headers_get resp "Content-Type") = Some false).
Proof.
  run_cases; status_tests;
    (split; [| split];
     [ intros sub' r' Hin; in_calls Hin;
       (split;
        [ reflexivity
        | eexists; eexists; cbn [response_of];
          (split; [reflexivity | split; eassumption]) ])
     | intros url' type' r' Hin; in_calls Hin;
       (split;
        [ reflexivity
        | eexists; eexists; cbn [In]; (split; [eauto 8 | assumption]) ])
     | intros r' Hin; in_calls Hin; eexists; cbn [response_of];
       (split;
        [ reflexivity
        | split; [symmetry; assumption | assumption] ]) ]).
Qed.

Lemma later_calls_are_justified_by_the_response_witness :
  In (CMediaUpload Examples.fetchUrl "image" (Resolved (Some Examples.asset)))
     (calls_of (Examples.first_run Examples.fresh_image) Examples.cached) /\
  exists ifModifiedSince resp,
    In (CFetch Examples.fetchUrl ifModifiedSince (Resolved resp))
       (calls_of (Examples.first_run Examples.fresh_image) Examples.cached) /\
    classify_content_type (headers_get resp "Content-Type") = Some true.
Proof.
  assert (Hin : In (CMediaUpload Examples.fetchUrl "image"
                      (Resolved (Some Examples.asset)))
                   (calls_of (Examples.first_run Examples.fresh_image)
                      Examples.cached)) by find_call.
  split; [exact Hin |].
  exact (proj2 (proj1 (proj2 (later_calls_are_justified_by_the_response
                                (Examples.first_run Examples.fresh_image)
                                Examples.cached)) _ _ _ Hin)).
Defined.

(** X10.  An outcome is never reported without the call that earns it: a
    run ends as [unchanged] exactly when its fetch resolved with status
    304; as [updated] only if an update call resolved to a widget; as
    [created] only if the add call resolved to a widget; and a run that
    ends as [updated] or [created] had no rejected call. *)
Theorem outcomes_are_earned (env : Env) (store : gmap string string) :
  (outcome_of env store = unchanged <->
   exists resp, response_of (calls_of env store) = Some resp /\
                status resp = 304) /\
  (outcome_of env store = updated ->
   exists wd x,
     In (CUpdateImageWidget wd (Resolved (Some x))) (calls_of env store) \/
     In (CUpdateTextAreaWidget wd (Resolved (Some x))) (calls_of env store)) /\
  (outcome_of env store = created ->
   exists wd x, In (CAddWidget wd (Resolved (Some x))) (calls_of env store)) /\
  (reconciled (outcome_of env store) = true ->
   existsb rejected (calls_of env store) = false).
Proof.
  run_cases; status_tests; cbn [response_of reconciled];
    (split; [| split; [| split]];
     [ split;
       [ intros Ho; try discriminate Ho; eexists; split; eauto
       | intros (resp' & Hresp & Hst); try discriminate Hresp;
         injection Hresp as <-; first [reflexivity | lia] ]
     | intros Ho; try discriminate Ho; eexists; eexists; cbn [In]; eauto 14
     | intros Ho; try discriminate Ho; eexists; eexists; cbn [In]; eauto 14
     | intros Ho; try discriminate Ho; reflexivity ]).
Qed.

Lemma outcomes_are_earned_witness :
  outcome_of Examples.text_over_text Examples.cached = updated /\
  exists wd x,
    In (CUpdateImageWidget wd (Resolved (Some x)))
       (calls_of Examples.text_over_text Examples.cached) \/
    In (CUpdateTextAreaWidget wd (Resolved (Some x)))
       (calls_of Examples.text_over_text Examples.cached).
Proof.
  assert (Ho : outcome_of Examples.text_over_text Examples.cached = updated)
    by (vm_compute; reflexivity).
  split; [exact Ho |].
  exact (proj1 (proj2 (outcomes_are_earned Examples.text_over_text
                         Examples.cached)) Ho).
Defined.



(** X12.  The settings validator and the job agree on the widget name: a
    name that [onValidate] accepts is never reported missing by a run that
    reads it, and a name it refuses always is. *)
Theorem validated_widget_name_is_not_missing (env : Env)
    (store : gmap string string) (value : option string) :
  In (CSettingsGet SettingKeys.SummaryWidgetName (Resolved value))
     (calls_of env store) ->
  (validate_widget_name value = None <->
   outcome_of env store <> skipped missing_widget_name).
Proof.
  intros Hin. unfold validate_widget_name.
  run_cases; in_calls Hin;
    destruct value as [name |]; cbv beta iota in *; cbn [truthy_opt];
    try match goal with
      | H : nonempty (Some (String_toLowerCase _ name)) = _ |- _ =>
          rewrite nonempty_toLowerCase in H
      end;
    try destruct (truthy name); cbn [negb nonempty] in *; try discriminate;
    (split;
     [ intros Hv; try discriminate Hv; discriminate
     | intros Ho; first [reflexivity | contradiction Ho; reflexivity] ]).
Qed.

Lemma validated_widget_name_is_not_missing_witness :
  In (CSettingsGet SettingKeys.SummaryWidgetName
        (Resolved (Some "Tropical Summary")))
     (calls_of Examples.text_over_text Examples.cached) /\
  validate_widget_name (Some "Tropical Summary") = None /\
  outcome_of Examples.text_over_text Examples.cached
  <> skipped missing_widget_name.
Proof.
  assert (Hin : In (CSettingsGet SettingKeys.SummaryWidgetName
                      (Resolved (Some "Tropical Summary")))
                   (calls_of Examples.text_over_text Examples.cached))
    by find_call.
  split; [exact Hin |]. split; [reflexivity |].
  apply (proj1 (validated_widget_name_is_not_missing _ _ _ Hin)).
  reflexivity.
Defined.

(* ================================================================== *)
(** ** Properties of the validators and of the scheduling handlers *)

Ltac handler_cbv_in H :=
  cbv [onAppUpgrade onPressStart onPressStop handle schedule_job toast_error
       h_bind h_ret h_return h_await h_record set_errCtx showToast
       h_redis_get h_redis_set h_redis_del h_redis h_effects h_errCtx
       app fst snd] in H.

(** Symbolic execution of a handler: one goal per path through it. *)
Ltac handler_cases call :=
  unfold handled, effects_of, store_of in *;
  let Hrun := fresh "Hrun" in
  let o := fresh "o" in
  let s := fresh "s" in
  destruct call as [o s] eqn:Hrun;
  cbn [fst snd] in *;
  handler_cbv_in Hrun;
  repeat (run_step_in Hrun; handler_cbv_in Hrun);
  injection Hrun as <- <-;
  cbn [h_effects h_redis] in *.


Lemma string_length_app (x y : string) :
  String.length (x +:+ y) = (String.length x + String.length y)%nat.
Proof.
  induction x as [| c x IH]; [reflexivity |].
  change (String c x +:+ y) with (String c (x +:+ y)).
  cbn [String.length]. rewrite IH. reflexivity.
Qed.

Lemma string_app_cancel_r (x y s : string) : x +:+ s = y +:+ s -> x = y.
Proof.
  revert y. induction x as [| c x IH]; intros [| d y] H.
  - reflexivity.
  - apply (f_equal String.length) in H.
    change (String.length s = S (String.length (y +:+ s))) in H.
    rewrite string_length_app in H. lia.
  - apply (f_equal String.length) in H.
    change (S (String.length (x +:+ s)) = String.length s) in H.
    rewrite string_length_app in H. lia.
  - change (String c (x +:+ s) = String d (y +:+ s)) in H.
    injection H as -> H. rewrite (IH y H). reflexivity.
Qed.

(** X13.  The frequency validator accepts an integer exactly when it lies
    between 1 and 60, and for every accepted frequency the handlers build
    [* * * * *] (for 1), [0 * * * *] (for 60) or the step form
    [*/n * * * *] with 2 <= n <= 59: the step is never 0, 1 or 60 and
    never negative. *)
Theorem accepted_frequency_gives_a_step_within_the_hour (v : Z) :
  (validate_update_frequency (Some v) = None <-> (1 <= v <= 60)%Z) /\
  (validate_update_frequency (Some v) = None ->
   v = 1%Z /\ cron_expression v = "* * * * *" \/
   v = 60%Z /\ cron_expression v = "0 * * * *" \/
   (2 <= v <= 59)%Z /\
   cron_expression v = "*/" +:+ pretty v +:+ " * * * *").
Proof.
  assert (Hiff : validate_update_frequency (Some v) = None
                 <-> (1 <= v <= 60)%Z).
  { unfold validate_update_frequency.
    destruct (Z.ltb_spec v 1); [split; [discriminate | lia] |].
    rewrite Z.gtb_ltb. destruct (Z.ltb_spec 60 v);
      [split; [discriminate | lia] | split; [lia | reflexivity]]. }
  split; [exact Hiff |].
  intros Hok. apply Hiff in Hok. unfold cron_expression.
  destruct (Z.eqb_spec v 1) as [-> | H1]; [left; split; reflexivity |].
  destruct (Z.eqb_spec v 60) as [-> | H60];
    [right; left; split; reflexivity |].
  right. right. split; [lia | reflexivity].
Qed.

Lemma accepted_frequency_gives_a_step_within_the_hour_witness :
  validate_update_frequency (Some 15%Z) = None /\
  cron_expression 15 = "*/15 * * * *".
Proof.
  assert (Hok : validate_update_frequency (Some 15%Z) = None)
    by reflexivity.
  split; [exact Hok |].
  destruct (proj2 (accepted_frequency_gives_a_step_within_the_hour 15) Hok)
    as [[H _] | [[H _] | [_ H]]]; [discriminate H | discriminate H |].
  rewrite H. reflexivity.
Defined.

(** X14.  Distinct integer frequencies never share a cron expression:
    among the integers a JavaScript number holds exactly, those of the
    settings form included, the expression determines the frequency it was
    built from. *)
Theorem cron_expression_determines_the_frequency (a b : Z) :
  isSafeInteger a = true -> isSafeInteger b = true ->
  cron_expression a = cron_expression b -> a = b.
Proof.
  intros _ _. unfold cron_expression.
  destruct (Z.eqb_spec a 1) as [-> | Ha1];
    destruct (Z.eqb_spec b 1) as [-> | Hb1];
    try destruct (Z.eqb_spec a 60) as [-> | Ha60];
    try destruct (Z.eqb_spec b 60) as [-> | Hb60];
    try reflexivity; try discriminate.
  intros H. apply (inj (String.app "*/")) in H.
  apply string_app_cancel_r in H.
  exact (inj pretty _ _ H).
Qed.

Lemma cron_expression_determines_the_frequency_witness :
  isSafeInteger 5 = true /\ isSafeInteger 50 = true /\
  validate_update_frequency (Some 5%Z) = None /\
  validate_update_frequency (Some 50%Z) = None /\
  cron_expression 5 <> cron_expression 50.
Proof.
  split; [reflexivity |]. split; [reflexivity |].
  split; [reflexivity |]. split; [reflexivity |].
  intros H.
  apply (cron_expression_determines_the_frequency 5 50 eq_refl eq_refl) in H.
  discriminate H.
Defined.

(** What the trigger does on a store that remembers no job. *)
Lemma upgrade_without_stored_id (host : Host) (store : gmap string string) :
  truthy_opt (store !! RedisKeys.SummaryUpdateJob) = false ->
  existsb is_runJob (effects_of (onAppUpgrade host store)) = false /\
  store_of (onAppUpgrade host store) = store /\
  (handled (onAppUpgrade host store) = job_not_scheduled \/
   exists reason,
     handled (onAppUpgrade host store) = trigger_failed reason /\
     host_redis_get_rejects host = Some reason).
Proof.
  intros Hnone.
  handler_cases (onAppUpgrade host store); try congruence;
    (split; [reflexivity | split; [reflexivity |]]);
    first [left; reflexivity | right; eexists; split; reflexivity].
Qed.



(** X16.  Every press of either menu item shows exactly one toast, as the
    last thing it does, whatever the platform answers; the toast has the
    [success] appearance exactly when the handler ends as started,
    respectively stopped. *)
Theorem every_press_shows_one_toast (host : Host)
    (store : gmap string string) :
  (length (List.filter is_toast (effects_of (onPressStart host store)))
   = 1%nat /\
   exists text appearance,
     last (effects_of (onPressStart host store))
     = Some (EToast text appearance) /\
     (appearance = success <->
      handled (onPressStart host store) = job_started)) /\
  (length (List.filter is_toast (effects_of (onPressStop host store)))
   = 1%nat /\
   exists text appearance,
     last (effects_of (onPressStop host store))
     = Some (EToast text appearance) /\
     (appearance = success <->
      handled (onPressStop host store) = job_stopped)).
Proof.
  split.
  - handler_cases (onPressStart host store);
      (split;
       [ reflexivity
       | eexists; eexists;
         (split; [reflexivity | split; intros H; first [reflexivity | discriminate H]]) ]).
  - handler_cases (onPressStop host store);
      (split;
       [ reflexivity
       | eexists; eexists;
         (split; [reflexivity | split; intros H; first [reflexivity | discriminate H]]) ]).
Qed.

(** X17.  Start never schedules a second job: when [listJobs] reports a
    job named [summary-update], the press ends as already running, with
    the neutral toast saying so as its only further effect; [runJob] is not
    called, redis is not written and the store is kept. *)
Theorem start_never_schedules_twice (host : Host)
    (store : gmap string string) (jobs : list ScheduledJob)
    (job : ScheduledJob) :
  scheduler_listJobs host = Resolved jobs ->
  find_summary_job jobs = Some job ->
  handled (onPressStart host store) = already_running /\
  effects_of (onPressStart host store)
  = [EListJobs (Resolved jobs);
     EToast "Summary Widget updates are already running." neutral] /\
  store_of (onPressStart host store) = store.
Proof.
  intros Hlist Hfind.
  handler_cases (onPressStart host store); simplify_eq; try congruence.
  repeat split; reflexivity.
Qed.

Lemma start_never_schedules_twice_witness :
  find_summary_job [Hosts.other_job; Hosts.summary_job]
  = Some Hosts.summary_job /\
  handled (onPressStart
             (Hosts.host [Hosts.other_job; Hosts.summary_job] None "job-8")
             Hosts.armed) = already_running /\
  store_of (onPressStart
              (Hosts.host [Hosts.other_job; Hosts.summary_job] None "job-8")
              Hosts.armed) = Hosts.armed.
Proof.
  assert (Hfind : find_summary_job [Hosts.other_job; Hosts.summary_job]
                  = Some Hosts.summary_job) by reflexivity.
  destruct (start_never_schedules_twice
              (Hosts.host [Hosts.other_job; Hosts.summary_job] None "job-8")
              Hosts.armed _ _ eq_refl Hfind) as (Ho & _ & Hs).
  split; [exact Hfind |]. split; assumption.
Defined.



(** X19.  The number in the error toast names the call that failed.  A
    failed press of Start shows 1 when [listJobs] rejected, 3 when the
    frequency setting could not be read, and 5 when [runJob] or the
    storing of the job id rejected; a failed press of Stop shows 1 when
    [listJobs] rejected, 3 when [cancelJob] rejected and 4 when the
    deletion of the job id rejected.  In each case the rejected call is the
    last one before the toast, and a failed press never changes the
    store. *)
Theorem error_number_names_the_failed_call (host : Host)
    (store : gmap string string) (reason : string) (errCtx : Z) :
  (handled (onPressStart host store) = press_failed reason errCtx ->
   store_of (onPressStart host store) = store /\
   exists before failed,
     effects_of (onPressStart host store)
     = before ++
       [failed;
        EToast ("There was an error (" +:+ pretty errCtx
                +:+ ") while scheduling the Summary Widget update job.")
          neutral] /\
     (errCtx = 1%Z /\ failed = EListJobs (Rejected reason) \/
      errCtx = 3%Z /\
      failed = ESettingsGet SettingKeys.SummaryUpdateFrequency
                 (Rejected reason) \/
      errCtx = 5%Z /\ (exists req, failed = ERunJob req (Rejected reason)) \/
      errCtx = 5%Z /\
      exists jobId,
        failed = ERedisSet RedisKeys.SummaryUpdateJob jobId (Rejected reason)))
  /\
  (handled (onPressStop host store) = press_failed reason errCtx ->
   store_of (onPressStop host store) = store /\
   exists before failed,
     effects_of (onPressStop host store)
     = before ++
       [failed;
        EToast ("There was an error (" +:+ pretty errCtx
                +:+ ") while stopping the Summary Widget update job.")
          neutral] /\
     (errCtx = 1%Z /\ failed = EListJobs (Rejected reason) \/
      errCtx = 3%Z /\ (exists id, failed = ECancelJob id (Rejected reason)) \/
      errCtx = 4%Z /\
      failed = ERedisDel RedisKeys.SummaryUpdateJob (Rejected reason))).
Proof.
  split.
  - intros Ho.
    handler_cases (onPressStart host store); try discriminate Ho;
      injection Ho as <- <-; (split; [reflexivity |]);
      match goal with
      | |- exists before failed, [?f; ?t] = _ /\ _ => exists [], f
      | |- exists before failed, [?a; ?f; ?t] = _ /\ _ => exists [a], f
      | |- exists before failed, [?a; ?b; ?f; ?t] = _ /\ _ =>
          exists [a; b], f
      | |- exists before failed, [?a; ?b; ?c; ?f; ?t] = _ /\ _ =>
          exists [a; b; c], f
      end;
      (split; [reflexivity |]); eauto 8.
  - intros Ho.
    handler_cases (onPressStop host store); try discriminate Ho;
      injection Ho as <- <-; (split; [reflexivity |]);
      match goal with
      | |- exists before failed, [?f; ?t] = _ /\ _ => exists [], f
      | |- exists before failed, [?a; ?f; ?t] = _ /\ _ => exists [a], f
      | |- exists before failed, [?a; ?b; ?f; ?t] = _ /\ _ =>
          exists [a; b], f
      end;
      (split; [reflexivity |]); eauto 8.
Qed.

Lemma error_number_names_the_failed_call_witness :
  handled (onPressStop (Hosts.host_cancel_rejects [Hosts.summary_job])
             Hosts.armed)
  = press_failed "scheduler unavailable" 3 /\
  store_of (onPressStop (Hosts.host_cancel_rejects [Hosts.summary_job])
              Hosts.armed) = Hosts.armed /\
  last (effects_of (onPressStop (Hosts.host_cancel_rejects [Hosts.summary_job])
                      Hosts.armed))
  = Some (EToast
            "There was an error (3) while stopping the Summary Widget update job."
            neutral).
Proof.
  assert (Ho : handled (onPressStop
                          (Hosts.host_cancel_rejects [Hosts.summary_job])
                          Hosts.armed)
               = press_failed "scheduler unavailable" 3)
    by (vm_compute; reflexivity).
  destruct (proj2 (error_number_names_the_failed_call
                     (Hosts.host_cancel_rejects [Hosts.summary_job])
                     Hosts.armed "scheduler unavailable" 3) Ho)
    as (Hs & _).
  split; [exact Ho |]. split; [exact Hs |]. vm_compute. reflexivity.
Defined.

(** What a successful Stop leaves in the store. *)
Lemma stopped_job_is_forgotten (host : Host) (store : gmap string string) :
  handled (onPressStop host store) = job_stopped ->
  store_of (onPressStop host store)
  = delete RedisKeys.SummaryUpdateJob store.
Proof.
  intros Ho.
  handler_cases (onPressStop host store); try discriminate Ho. reflexivity.
Qed.

(** X20.  Stop cancels the first job named [summary-update] that
    [listJobs] reports, and only then forgets it: the cancel carries the
    id of that job; a press that ends as stopped has cancelled, then
    deleted the job id, and leaves the store without it; when [cancelJob]
    rejects, redis is not touched and the store is kept. *)
Theorem stop_cancels_then_forgets (host : Host) (store : gmap string string)
    (jobs : list ScheduledJob) (job : ScheduledJob) :
  scheduler_listJobs host = Resolved jobs ->
  find_summary_job jobs = Some job ->
  (exists r before,
     effects_of (onPressStop host store)
     = EListJobs (Resolved jobs) :: ECancelJob (job_id job) r :: before) /\
  (handled (onPressStop host store) = job_stopped ->
   effects_of (onPressStop host store)
   = [EListJobs (Resolved jobs);
      ECancelJob (job_id job) (Resolved tt);
      ERedisDel RedisKeys.SummaryUpdateJob (Resolved tt);
      EToast "Summary Widget updates stopped!" success] /\
   store_of (onPressStop host store)
   = delete RedisKeys.SummaryUpdateJob store) /\
  (forall reason,
     scheduler_cancelJob host (job_id job) = Rejected reason ->
     existsb is_redis_write (effects_of (onPressStop host store)) = false /\
     store_of (onPressStop host store) = store).
Proof.
  intros Hlist Hfind.
  handler_cases (onPressStop host store); simplify_eq; try congruence;
    (split; [eexists; eexists; reflexivity |]);
    (split;
     [ intros Ho; try discriminate Ho;
       repeat match goal with u : unit |- _ => destruct u end;
       split; reflexivity
     | intros why Hrej; try congruence; split; reflexivity ]).
Qed.

Lemma stop_cancels_then_forgets_witness :
  find_summary_job [Hosts.other_job; Hosts.summary_job]
  = Some Hosts.summary_job /\
  handled (onPressStop
             (Hosts.host [Hosts.other_job; Hosts.summary_job] None "job-8")
             Hosts.armed) = job_stopped /\
  store_of (onPressStop
              (Hosts.host [Hosts.other_job; Hosts.summary_job] None "job-8")
              Hosts.armed) = delete RedisKeys.SummaryUpdateJob Hosts.armed.
Proof.
  assert (Hfind : find_summary_job [Hosts.other_job; Hosts.summary_job]
                  = Some Hosts.summary_job) by reflexivity.
  assert (Ho : handled (onPressStop
                          (Hosts.host [Hosts.other_job; Hosts.summary_job]
                             None "job-8") Hosts.armed) = job_stopped)
    by (vm_compute; reflexivity).
  destruct (stop_cancels_then_forgets
              (Hosts.host [Hosts.other_job; Hosts.summary_job] None "job-8")
              Hosts.armed _ _ eq_refl Hfind) as (_ & Hstopped & _).
  split; [exact Hfind |]. split; [exact Ho |].
  exact (proj2 (Hstopped Ho)).
Defined.

(** X21.  Stop without a job changes nothing: when [listJobs] reports no
    job named [summary-update], the press ends as not running with the
    neutral toast as its only further effect; no job is cancelled and the
    job id, if the store still holds one, stays in the store. *)
Theorem stop_without_job_changes_nothing (host : Host)
    (store : gmap string string) (jobs : list ScheduledJob) :
  scheduler_listJobs host = Resolved jobs ->
  find_summary_job jobs = None ->
  handled (onPressStop host store) = not_running /\
  effects_of (onPressStop host store)
  = [EListJobs (Resolved jobs);
     EToast "Summary Widget updates are not currently scheduled." neutral] /\
  store_of (onPressStop host store) = store.
Proof.
  intros Hlist Hfind.
  handler_cases (onPressStop host store); simplify_eq; try congruence.
  repeat split; reflexivity.
Qed.

Lemma stop_without_job_changes_nothing_witness :
  find_summary_job [Hosts.other_job] = None /\
  handled (onPressStop (Hosts.host [Hosts.other_job] None "job-8")
             Hosts.armed) = not_running /\
  store_of (onPressStop (Hosts.host [Hosts.other_job] None "job-8")
              Hosts.armed) = Hosts.armed.
Proof.
  assert (Hfind : find_summary_job [Hosts.other_job] = None) by reflexivity.
  destruct (stop_without_job_changes_nothing
              (Hosts.host [Hosts.other_job] None "job-8") Hosts.armed _
              eq_refl Hfind) as (Ho & _ & Hs).
  split; [exact Hfind |]. split; assumption.
Defined.

(** X22.  A stopped job stays stopped across an upgrade: after a press of
    Stop that ends as stopped, the upgrade trigger run on the store it
    leaves never calls [runJob] and leaves the store alone, whatever the
    platform answers; it ends as not scheduled unless reading redis
    rejects. *)
Theorem stopped_job_is_not_rearmed_by_upgrade (host later : Host)
    (store : gmap string string) :
  handled (onPressStop host store) = job_stopped ->
  existsb is_runJob
    (effects_of (onAppUpgrade later (store_of (onPressStop host store))))
  = false /\
  store_of (onAppUpgrade later (store_of (onPressStop host store)))
  = store_of (onPressStop host store) /\
  (host_redis_get_rejects later = None ->
   handled (onAppUpgrade later (store_of (onPressStop host store)))
   = job_not_scheduled).
Proof.
  intros Ho.
  rewrite (stopped_job_is_forgotten host store Ho).
  destruct (upgrade_without_stored_id later
              (delete RedisKeys.SummaryUpdateJob store))
    as (Hrun & Hstore & Hend).
  { rewrite lookup_delete_eq. reflexivity. }
  split; [exact Hrun |]. split; [exact Hstore |].
  intros Hget. destruct Hend as [H | (why & _ & H)]; [exact H | congruence].
Qed.

Lemma stopped_job_is_not_rearmed_by_upgrade_witness :
  handled (onPressStop
             (Hosts.host [Hosts.summary_job] None "job-8") Hosts.armed)
  = job_stopped /\
  handled (onAppUpgrade (Hosts.host [] (Some 15%Z) "job-9")
             (store_of (onPressStop
                          (Hosts.host [Hosts.summary_job] None "job-8")
                          Hosts.armed)))
  = job_not_scheduled.
Proof.
  assert (Ho : handled (onPressStop
                          (Hosts.host [Hosts.summary_job] None "job-8")
                          Hosts.armed) = job_stopped)
    by (vm_compute; reflexivity).
  split; [exact Ho |].
  exact (proj2 (proj2 (stopped_job_is_not_rearmed_by_upgrade
                         (Hosts.host [Hosts.summary_job] None "job-8")
                         (Hosts.host [] (Some 15%Z) "job-9") Hosts.armed Ho))
           eq_refl).
Defined.


